(** * Response normalisation of litellm: a shallow embedding

    Embedded sources:
    - [litellm/litellm_core_utils/core_helpers.py]: [map_finish_reason];
    - [litellm/litellm_core_utils/llm_response_utils.py]:
      [_get_openai_headers], [_set_headers_in_hidden_params],
      [convert_to_model_response_object],
      [convert_to_streaming_response_async],
      [convert_to_streaming_response],
      [_handle_invalid_parallel_tool_calls].

    Python values are a tagged union; a [dict] is an association list in
    insertion order; exceptions are an error type threaded through a small
    error monad, and the one place where the source writes into its
    argument (the asynchronous streaming adapter) threads the payload as
    explicit state. The payload is the tree a JSON decoder returns: no two
    positions of it share a dict or a list. *)

From Stdlib Require Import String Ascii List ZArith Bool Lia Arith.
From Stdlib Require Import Decimal DecimalString QArith.
Import ListNotations.
Open Scope string_scope.
Open Scope list_scope.
Close Scope Q_scope.
Set Warnings "-register-all".

(** ** Python values *)

(** The payload is decoded JSON; [VObj] stands for an instance of a class
    of [litellm.types.utils] stored into it (the asynchronous adapter puts
    typed tool calls there). Floating-point numbers are outside the
    modelled fragment. *)
Inductive value : Type :=
| VNone
| VBool (b : bool)
| VInt (n : Z)
| VStr (s : string)
| VList (l : list value)
| VDict (d : list (string * value))
| VObj (cls : string) (attrs : list (string * value)).

Definition dict := list (string * value).

(** [bool(v)] *)
Definition truthy (v : value) : bool :=
  match v with
  | VNone => false
  | VBool b => b
  | VInt n => negb (n =? 0)%Z
  | VStr s => negb (s =? EmptyString)
  | VList l => match l with [] => false | _ => true end
  | VDict d => match d with [] => false | _ => true end
  | VObj _ _ => true
  end.

(** [a or b] *)
Definition py_or (a b : value) : value := if truthy a then a else b.

(** [v is None] *)
Definition is_None (v : value) : bool :=
  match v with VNone => true | _ => false end.

(** ** Exceptions and the error monad *)

Inductive exn : Type :=
| ResponseError (status_code : value) (message : string)
    (* [Exception()] with [status_code] and [message] attributes set *)
| Exception_ (msg : string)
| KeyError (key : string)
| TypeError
| AttributeError
| AssertionError
| JSONDecodeError
| ValidationError
| InvalidResponseObject (cause : exn).
    (* [Exception(f"Invalid response object {traceback} ...")] *)

Inductive result (A : Type) : Type :=
| Ok (a : A)
| Raise (e : exn).
Arguments Ok {A} a.
Arguments Raise {A} e.

Definition bind {A B} (m : result A) (f : A -> result B) : result B :=
  match m with
  | Ok a => f a
  | Raise e => Raise e
  end.

Declare Scope py_scope.
Delimit Scope py_scope with py.
Notation "x <- m ;; k" := (bind m (fun x => k))
  (at level 100, m at next level, right associativity) : py_scope.
Notation "' p <- m ;; k" := (bind m (fun x => match x with p => k end))
  (at level 100, p pattern, m at next level, right associativity) : py_scope.
Open Scope py_scope.

(** [for x in l: ...] collecting one result per element, stopping at the
    first exception. *)
Fixpoint mapM {A B} (f : A -> result B) (l : list A) : result (list B) :=
  match l with
  | [] => Ok []
  | x :: xs => y <- f x ;; ys <- mapM f xs ;; Ok (y :: ys)
  end.

(** [enumerate(l)] from a starting index. *)
Fixpoint enumerate_from {A} (i : nat) (l : list A) : list (nat * A) :=
  match l with
  | [] => []
  | x :: xs => (i, x) :: enumerate_from (S i) xs
  end.
Definition enumerate {A} (l : list A) : list (nat * A) := enumerate_from 0 l.

(** ** Dictionaries *)

(** [d.get(k)] as an option: the first binding of [k]. *)
Fixpoint dict_lookup (k : string) (d : dict) : option value :=
  match d with
  | [] => None
  | (k', v) :: d' => if k =? k' then Some v else dict_lookup k d'
  end.

(** [k in d] *)
Definition dict_mem (k : string) (d : dict) : bool :=
  match dict_lookup k d with Some _ => true | None => false end.

(** [d[k] = v]: overwrite in place, or append a new key at the end. *)
Fixpoint dict_set (k : string) (v : value) (d : dict) : dict :=
  match d with
  | [] => [(k, v)]
  | (k', v') :: d' =>
      if k =? k' then (k', v) :: d' else (k', v') :: dict_set k v d'
  end.

(** [{**a, **b}] and [a.update(b)] *)
Definition dict_update (a b : dict) : dict :=
  fold_left (fun acc kv => dict_set (fst kv) (snd kv) acc) b a.

(** [d.get(k, None)] on a dict. *)
Definition dict_get (k : string) (d : dict) : value :=
  match dict_lookup k d with Some v => v | None => VNone end.

(** [v[k]] for a string key: [KeyError] on a dict without the key,
    [TypeError] on a value that is no dict. *)
Definition subscript (v : value) (k : string) : result value :=
  match v with
  | VDict d =>
      match dict_lookup k d with Some x => Ok x | None => Raise (KeyError k) end
  | _ => Raise TypeError
  end.

(** [v.get(k, None)]: only a dict has the method. *)
Definition get (v : value) (k : string) : result value :=
  match v with
  | VDict d => Ok (dict_get k d)
  | _ => Raise AttributeError
  end.

(** Iteration over a value ([for x in v]): a list yields its elements, a
    dict its keys, a string its characters; other values are not
    iterable. *)
Definition chars (s : string) : list value :=
  map (fun c => VStr (String c EmptyString)) (list_ascii_of_string s).

Definition is_Iterable (v : value) : bool :=
  match v with
  | VList _ | VDict _ | VStr _ => true
  | _ => false
  end.

Definition iterate (v : value) : result (list value) :=
  match v with
  | VList l => Ok l
  | VDict d => Ok (map (fun kv => VStr (fst kv)) d)
  | VStr s => Ok (chars s)
  | _ => Raise TypeError
  end.

(** ** [core_helpers.map_finish_reason] *)

Definition map_finish_reason (finish_reason : string) : string :=
  if finish_reason =? "stop_sequence" then "stop"
  else if finish_reason =? "COMPLETE" then "stop"
  else if finish_reason =? "MAX_TOKENS" then "length"
  else if finish_reason =? "ERROR_TOXIC" then "content_filter"
  else if finish_reason =? "ERROR" then "stop"
  else if (finish_reason =? "eos_token") || (finish_reason =? "stop_sequence")
       then "stop"
  else if (finish_reason =? "FINISH_REASON_UNSPECIFIED")
          || (finish_reason =? "STOP")
       then "stop"
  else if (finish_reason =? "SAFETY") || (finish_reason =? "RECITATION")
       then "content_filter"
  else if finish_reason =? "STOP" then "stop"
  else if (finish_reason =? "end_turn") || (finish_reason =? "stop_sequence")
       then "stop"
  else if finish_reason =? "max_tokens" then "length"
  else if finish_reason =? "tool_use" then "tool_calls"
  else if finish_reason =? "content_filtered" then "content_filter"
  else finish_reason.

(** The mapping table as the specification words it (section 4.1), with
    the identity fallback. *)
Definition finish_reason_table : list (string * string) :=
  [ ("stop_sequence", "stop"); ("COMPLETE", "stop"); ("eos_token", "stop");
    ("FINISH_REASON_UNSPECIFIED", "stop"); ("STOP", "stop");
    ("end_turn", "stop"); ("ERROR", "stop");
    ("MAX_TOKENS", "length"); ("max_tokens", "length");
    ("ERROR_TOXIC", "content_filter"); ("SAFETY", "content_filter");
    ("RECITATION", "content_filter"); ("content_filtered", "content_filter");
    ("tool_use", "tool_calls") ].

Fixpoint table_lookup (s : string) (t : list (string * string))
  : option string :=
  match t with
  | [] => None
  | (k, c) :: t' => if s =? k then Some c else table_lookup s t'
  end.

Definition finish_reason_spec (s : string) : string :=
  match table_lookup s finish_reason_table with
  | Some c => c
  | None => s
  end.

(** ** The response classes of [litellm.types.utils]

    The classes are declared outside the two embedded files; a record holds
    the fields the embedded code passes to a constructor or assigns. *)

Record Function : Type := {
  fn_name : string;
  fn_arguments : option string
}.

Record ChatCompletionMessageToolCall : Type := {
  tc_id : string;
  tc_type : string;
  tc_function : Function
}.

(** The variable [tool_calls] of the assembler: the raw payload value
    (possibly [None]) until the repaired, typed list is bound to it. *)
Inductive tool_calls_v : Type :=
| RawToolCalls (v : value)
| TypedToolCalls (l : list ChatCompletionMessageToolCall).

Record Message : Type := {
  msg_content : value;
  msg_role : value;
  msg_function_call : value;
  msg_tool_calls : tool_calls_v;
  msg_audio : value
}.

Record Choices : Type := {
  ch_finish_reason : value;
  ch_index : nat;
  ch_message : Message;
  ch_logprobs : value;
  ch_enhancements : value
}.

Record Delta : Type := {
  d_content : value;
  d_role : value;
  d_function_call : value;
  d_tool_calls : value
}.

Record StreamingChoices : Type := {
  sc_finish_reason : value;
  sc_index : nat;
  sc_delta : Delta;
  sc_logprobs : value;
  sc_enhancements : value
}.

Record Usage : Type := {
  completion_tokens : value;
  prompt_tokens : value;
  total_tokens : value
}.

Inductive choice_list : Type :=
| NonStreaming (l : list Choices)
| Streaming (l : list StreamingChoices).

Record ModelResponse : Type := {
  mr_choices : choice_list;
  mr_usage : option Usage;
  mr_created : value;
  mr_id : value;
  mr_system_fingerprint : value;
  mr_model : value;
  mr_response_ms : option Q;
  mr_hidden_params : option dict;
  mr_response_headers : option dict;
  mr_extra : dict          (* attributes set by name for unknown keys *)
}.

Record ImageResponse : Type := {
  img_created : value;
  img_data : value;
  img_hidden_params : option dict
}.

Record TranscriptionResponse : Type := {
  tr_attrs : dict;         (* [text] and the attributes set by name *)
  tr_hidden_params : option dict;
  tr_response_headers : option dict
}.

(** The target object, tagged by its class ([isinstance]). *)
Inductive response : Type :=
| RModel (m : ModelResponse)
| REmbedding (attrs : dict)
| RImage (i : ImageResponse)
| RTranscription (t : TranscriptionResponse)
| RRerank (attrs : dict).

(** A [datetime], in microseconds. *)
Definition datetime := Z.

Definition SENTINEL : string := "multi_tool_use.parallel".

(** [n] in decimal, as an f-string prints an index. *)
Definition decimal (n : nat) : string :=
  NilEmpty.string_of_uint (Nat.to_uint n).

(** ** What the module imports

    [json], [repr], the clock, [uuid], the constructors of the response
    classes that take an unpacked dict, and the sibling assemblers for
    embeddings and rerank are not part of the two embedded files: the
    model takes them as an interface. [py_runtime] below is an executable
    instance, used to run the model on concrete payloads. *)

Class Runtime : Type := {
  (** [json.loads(s)]; failure is [JSONDecodeError] *)
  json_loads : string -> option value;
  (** [json.dumps(v)]; failure is [TypeError] (value not serialisable) *)
  json_dumps : value -> option string;
  (** [repr(v)], which is what [str(v)] prints for a non-string *)
  py_repr : value -> string;
  (** [ChatCompletionMessageToolCall] applied to the unpacked dict [_tc] *)
  tool_call_of_dict : value -> result ChatCompletionMessageToolCall;
  (** [ChatCompletionDeltaToolCall] applied to the unpacked dict [t] *)
  delta_tool_call_of_dict : dict -> result value;
  (** [litellm.Usage] applied to the unpacked [usage] dict *)
  usage_of_dict : value -> result Usage;
  (** [int(time.time())] and [str(uuid.uuid4())] *)
  time_now : Z;
  uuid4 : string;
  (** [list(litellm.ModelResponse.model_fields.keys())] *)
  model_fields : list string;
  (** [ModelResponse(stream=True)], [ImageResponse()],
      [TranscriptionResponse()] *)
  new_streaming_response : ModelResponse;
  new_image_response : ImageResponse;
  new_transcription_response : TranscriptionResponse;
  (** the sibling assemblers *)
  convert_dict_to_embedding_response :
    option dict -> option dict -> option datetime -> option datetime ->
    dict -> option dict -> result dict;
  convert_dict_to_rerank_response :
    option dict -> option dict -> result dict
}.

(** [str(v)] *)
Definition py_str `{Runtime} (v : value) : string :=
  match v with
  | VStr s => s
  | _ => py_repr v
  end.

Section ToolCallRepair.
Context `{Runtime}.

(** [replacements[i].append(x)] on a [defaultdict(list)]: the key is
    created, last in iteration order, the first time it is touched. *)
Fixpoint dd_append {A} (i : nat) (x : A) (r : list (nat * list A))
  : list (nat * list A) :=
  match r with
  | [] => [(i, [x])]
  | (j, l) :: r' =>
      if (i =? j)%nat then (j, l ++ [x]) :: r' else (j, l) :: dd_append i x r'
  end.

(** Left-to-right loop with an accumulator, stopping at the first
    exception. *)
Fixpoint foldM {A B} (f : A -> B -> result A) (l : list B) (a : A)
  : result A :=
  match l with
  | [] => Ok a
  | x :: xs => a' <- f a x ;; foldM f xs a'
  end.

(** [json.loads(tool_call.function.arguments)] *)
Definition loads_arguments (a : option string) : result value :=
  match a with
  | None => Raise TypeError
  | Some s =>
      match json_loads s with
      | Some v => Ok v
      | None => Raise JSONDecodeError
      end
  end.

Definition dumps (v : value) : result string :=
  match json_dumps v with
  | Some s => Ok s
  | None => Raise TypeError
  end.

(** [if s.startswith("functions."): s = s[len("functions."):]] *)
Definition strip_functions (v : value) : result string :=
  match v with
  | VStr s =>
      if prefix "functions." s
      then Ok (substring 10 (String.length s - 10) s)
      else Ok s
  | _ => Raise AttributeError
  end.

(** Body of the inner loop, lines 481-494. *)
Definition expand_tool_use (i : nat) (tool_call : ChatCompletionMessageToolCall)
    (replacements : list (nat * list ChatCompletionMessageToolCall))
    (fake : nat * value)
  : result (list (nat * list ChatCompletionMessageToolCall)) :=
  let '(_fake_i, _fake_tool_use) := fake in
  _function_args <- subscript _fake_tool_use "parameters" ;;
  recipient <- subscript _fake_tool_use "recipient_name" ;;
  _current_function <- strip_functions recipient ;;
  args <- dumps _function_args ;;
  let fixed_tc :=
    {| tc_id := (tc_id tool_call ++ "_" ++ decimal _fake_i)%string;
       tc_type := "function";
       tc_function := {| fn_name := _current_function;
                         fn_arguments := Some args |} |} in
  Ok (dd_append i fixed_tc replacements).

(** Body of the outer loop, lines 474-494. *)
Definition collect_step
    (replacements : list (nat * list ChatCompletionMessageToolCall))
    (it : nat * ChatCompletionMessageToolCall)
  : result (list (nat * list ChatCompletionMessageToolCall)) :=
  let '(i, tool_call) := it in
  let current_function := fn_name (tc_function tool_call) in
  function_args <- loads_arguments (fn_arguments (tc_function tool_call)) ;;
  if current_function =? SENTINEL then
    tool_uses <- subscript function_args "tool_uses" ;;
    items <- iterate tool_uses ;;
    foldM (expand_tool_use i tool_call) (enumerate items) replacements
  else Ok replacements.

Definition collect_replacements (tool_calls : list ChatCompletionMessageToolCall)
  : result (list (nat * list ChatCompletionMessageToolCall)) :=
  foldM collect_step (enumerate tool_calls) [].

(** Lines 496-501: the slice assignments, with the running [shift]. *)
Fixpoint apply_replacements
    (replacements : list (nat * list ChatCompletionMessageToolCall))
    (shift : nat) (tool_calls : list ChatCompletionMessageToolCall)
  : list ChatCompletionMessageToolCall :=
  match replacements with
  | [] => tool_calls
  | (i, replacement) :: rest =>
      apply_replacements rest (shift + length replacement)
        (firstn (i + shift) tool_calls ++ replacement
           ++ skipn (i + shift + 1) tool_calls)
  end.

Definition _handle_invalid_parallel_tool_calls
    (tool_calls : option (list ChatCompletionMessageToolCall))
  : result (option (list ChatCompletionMessageToolCall)) :=
  match tool_calls with
  | None => Ok None
  | Some tool_calls =>
      replacements <- collect_replacements tool_calls ;;
      Ok (Some (apply_replacements replacements 0 tool_calls))
  end.

End ToolCallRepair.

(** ** Header extraction *)

Definition copy_if_present (k : string) (src dst : dict) : dict :=
  match dict_lookup k src with
  | Some v => dict_set k v dst
  | None => dst
  end.

Definition _get_openai_headers (_response_headers : dict) : dict :=
  let openai_headers := [] in
  let openai_headers :=
    copy_if_present "x-ratelimit-limit-requests" _response_headers openai_headers in
  let openai_headers :=
    copy_if_present "x-ratelimit-remaining-requests" _response_headers openai_headers in
  let openai_headers :=
    copy_if_present "x-ratelimit-limit-tokens" _response_headers openai_headers in
  let openai_headers :=
    copy_if_present "x-ratelimit-remaining-tokens" _response_headers openai_headers in
  openai_headers.

(** The dict comprehension of line 66: every header under the key
    [llm_provider-<k>]. *)
Definition llm_provider_headers (_response_headers : dict) : dict :=
  fold_left
    (fun acc kv => dict_set ("llm_provider-" ++ fst kv)%string (snd kv) acc)
    _response_headers [].

Definition _set_headers_in_hidden_params
    (hidden_params : option dict) (_response_headers : dict) : option dict :=
  let openai_headers := _get_openai_headers _response_headers in
  let llm_response_headers := llm_provider_headers _response_headers in
  match hidden_params with
  | Some hp =>
      Some (dict_set "additional_headers"
              (VDict (dict_update llm_response_headers openai_headers)) hp)
  | None => None
  end.

(** ** The streaming adapters *)

Section Streaming.
Context `{Runtime}.

(** [d.get(k, 0)] *)
Definition get_or_zero (v : value) (k : string) : result value :=
  match v with
  | VDict d =>
      match dict_lookup k d with Some x => Ok x | None => Ok (VInt 0) end
  | _ => Raise AttributeError
  end.

(** Lines 380-401 and 438-454: the top-level copies, the same statements
    in both adapters ([usage] through the constructor in one and through
    three attribute assignments in the other). *)
Definition copy_top_level (response_object : dict)
    (model_response_object : ModelResponse) : result ModelResponse :=
  usage <-
    (match dict_lookup "usage" response_object with
     | Some u =>
         if is_None u then Ok (mr_usage model_response_object)
         else
           c <- get_or_zero u "completion_tokens" ;;
           p <- get_or_zero u "prompt_tokens" ;;
           t <- get_or_zero u "total_tokens" ;;
           Ok (Some {| completion_tokens := c; prompt_tokens := p;
                       total_tokens := t |})
     | None => Ok (mr_usage model_response_object)
     end) ;;
  let pick k old :=
    match dict_lookup k response_object with Some v => v | None => old end in
  Ok {| mr_choices := mr_choices model_response_object;
        mr_usage := usage;
        mr_created := pick "created" (mr_created model_response_object);
        mr_id := pick "id" (mr_id model_response_object);
        mr_system_fingerprint :=
          pick "system_fingerprint"
               (mr_system_fingerprint model_response_object);
        mr_model := pick "model" (mr_model model_response_object);
        mr_response_ms := mr_response_ms model_response_object;
        mr_hidden_params := mr_hidden_params model_response_object;
        mr_response_headers := mr_response_headers model_response_object;
        mr_extra := mr_extra model_response_object |}.

Definition set_choices (cl : choice_list) (m : ModelResponse) : ModelResponse :=
  {| mr_choices := cl;
     mr_usage := mr_usage m;
     mr_created := mr_created m;
     mr_id := mr_id m;
     mr_system_fingerprint := mr_system_fingerprint m;
     mr_model := mr_model m;
     mr_response_ms := mr_response_ms m;
     mr_hidden_params := mr_hidden_params m;
     mr_response_headers := mr_response_headers m;
     mr_extra := mr_extra m |}.

(** *** [convert_to_streaming_response] (synchronous) *)

(** Loop body, lines 415-435. It only reads [choice]. *)
Definition sync_choice (it : nat * value) : result StreamingChoices :=
  let '(idx, choice) := it in
  message <- subscript choice "message" ;;
  content <- get message "content" ;;
  role <- subscript message "role" ;;
  function_call <- get message "function_call" ;;
  tool_calls <- get message "tool_calls" ;;
  let delta := {| d_content := content; d_role := role;
                  d_function_call := function_call;
                  d_tool_calls := tool_calls |} in
  finish_reason <- get choice "finish_reason" ;;
  finish_reason <-
    (if is_None finish_reason then get choice "finish_details"
     else Ok finish_reason) ;;
  logprobs <- get choice "logprobs" ;;
  enhancements <- get choice "enhancements" ;;
  Ok {| sc_finish_reason := finish_reason; sc_index := idx;
        sc_delta := delta; sc_logprobs := logprobs;
        sc_enhancements := enhancements |}.

(** The generator run to its single [yield]: the payload afterwards and
    the yielded response (or the exception). No statement of the source
    writes into the payload, so the first component is the argument. *)
Definition convert_to_streaming_response (response_object : option dict)
  : option dict * result ModelResponse :=
  (response_object,
   match response_object with
   | None => Raise (Exception_ "Error in response object format")
   | Some ro =>
       let model_response_object := new_streaming_response in
       choices <- subscript (VDict ro) "choices" ;;
       items <- iterate choices ;;
       choice_list <- mapM sync_choice (enumerate items) ;;
       copy_top_level ro (set_choices (Streaming choice_list)
                                      model_response_object)
   end).

(** *** [convert_to_streaming_response_async] *)

(** Lines 355-358: the loop over the raw tool calls. It writes
    [t["index"]] into each record that has none; the first component is
    the list as the loop leaves it, also when it stops on an exception. *)
Fixpoint index_tool_calls (index : nat) (ts : list value)
  : list value * result (list value) :=
  match ts with
  | [] => ([], Ok [])
  | VDict t :: rest =>
      let t' := if dict_mem "index" t then t
                else dict_set "index" (VInt (Z.of_nat index)) t in
      match delta_tool_call_of_dict t' with
      | Raise e => (VDict t' :: rest, Raise e)
      | Ok typed =>
          let '(rest', r) := index_tool_calls (S index) rest in
          (VDict t' :: rest',
           match r with
           | Ok pydantic_tool_calls => Ok (typed :: pydantic_tool_calls)
           | Raise e => Raise e
           end)
      end
  | t :: rest => (t :: rest, Raise TypeError)
  end.

(** The guard of lines 348-353. *)
Definition has_raw_tool_calls (message : dict) : bool :=
  match dict_get "tool_calls" message with
  | VList (VDict _ :: _) => true
  | _ => false
  end.

(** Lines 348-359 on the message dict: the message afterwards. *)
Definition retype_tool_calls (message : dict) : dict * result unit :=
  if has_raw_tool_calls message then
    match dict_get "tool_calls" message with
    | VList ts =>
        match index_tool_calls 0 ts with
        | (ts', Raise e) => (dict_set "tool_calls" (VList ts') message, Raise e)
        | (_, Ok pydantic_tool_calls) =>
            (dict_set "tool_calls" (VList pydantic_tool_calls) message, Ok tt)
        end
    | _ => (message, Ok tt)
    end
  else (message, Ok tt).

(** Lines 360-375, reading the (rewritten) choice. *)
Definition async_build (idx : nat) (choice : value) : result StreamingChoices :=
  message <- subscript choice "message" ;;
  content <- get message "content" ;;
  role <- subscript message "role" ;;
  function_call <- get message "function_call" ;;
  tool_calls <- get message "tool_calls" ;;
  let delta := {| d_content := content; d_role := role;
                  d_function_call := function_call;
                  d_tool_calls := tool_calls |} in
  finish_reason <- get choice "finish_reason" ;;
  finish_reason <-
    (if is_None finish_reason then get choice "finish_details"
     else Ok finish_reason) ;;
  logprobs <- get choice "logprobs" ;;
  Ok {| sc_finish_reason := finish_reason; sc_index := idx;
        sc_delta := delta; sc_logprobs := logprobs;
        sc_enhancements := VNone |}.

(** Loop body, lines 348-376: the choice afterwards and its result. *)
Definition async_choice (idx : nat) (choice : value)
  : value * result StreamingChoices :=
  match choice with
  | VDict c =>
      match dict_lookup "message" c with
      | None => (choice, Raise (KeyError "message"))
      | Some (VDict message) =>
          let '(message', r) := retype_tool_calls message in
          let choice' := VDict (dict_set "message" (VDict message') c) in
          (choice', match r with
                    | Ok _ => async_build idx choice'
                    | Raise e => Raise e
                    end)
      | Some _ => (choice, Raise AttributeError)
      end
  | _ => (choice, Raise TypeError)
  end.

Fixpoint async_choices (idx : nat) (choices : list value)
  : list value * result (list StreamingChoices) :=
  match choices with
  | [] => ([], Ok [])
  | choice :: rest =>
      match async_choice idx choice with
      | (choice', Raise e) => (choice' :: rest, Raise e)
      | (choice', Ok sc) =>
          let '(rest', r) := async_choices (S idx) rest in
          (choice' :: rest',
           match r with
           | Ok scs => Ok (sc :: scs)
           | Raise e => Raise e
           end)
      end
  end.

(** The asynchronous generator run to its single [yield]: the payload
    afterwards and the yielded response (or the exception). Iterating a
    dict or a string yields fresh strings, so only the elements of a list
    of choices can be written to. *)
Definition convert_to_streaming_response_async (response_object : option dict)
  : option dict * result ModelResponse :=
  match response_object with
  | None => (None, Raise (Exception_ "Error in response object format"))
  | Some ro =>
      let model_response_object := new_streaming_response in
      match subscript (VDict ro) "choices" with
      | Raise e => (Some ro, Raise e)
      | Ok choices =>
          match iterate choices with
          | Raise e => (Some ro, Raise e)
          | Ok items =>
              let '(items', r) := async_choices 0 items in
              let ro' := match choices with
                         | VList _ => dict_set "choices" (VList items') ro
                         | _ => ro
                         end in
              (Some ro',
               choice_list <- r ;;
               copy_top_level ro' (set_choices (Streaming choice_list)
                                               model_response_object))
          end
      end
  end.

End Streaming.

(** ** The response assembler *)

(** Modelled from the spec: the constructor [Choices] of
    [litellm.types.utils] is not among the embedded files. Section 4.4,
    step 3 has the finish reason "passed through the Finish-Reason Mapper"
    before it is stored; the mapper compares its argument with string
    constants, so a value that is no string is stored as it is. *)
Definition map_finish_reason_value (finish_reason : value) : value :=
  match finish_reason with
  | VStr s => VStr (map_finish_reason s)
  | v => v
  end.

Definition Choices_init (finish_reason : value) (index : nat)
    (message : Message) (logprobs enhancements : value) : Choices :=
  {| ch_finish_reason := map_finish_reason_value finish_reason;
     ch_index := index;
     ch_message := message;
     ch_logprobs := logprobs;
     ch_enhancements := enhancements |}.

(** Modelled from the spec: the constructor [Message] is not among the
    embedded files. Section 3 gives the role its default "assistant";
    the other fields default to [None]. This is [litellm.Message(content=c)]. *)
Definition Message_of_content (content : value) : Message :=
  {| msg_content := content;
     msg_role := VStr "assistant";
     msg_function_call := VNone;
     msg_tool_calls := RawToolCalls VNone;
     msg_audio := VNone |}.

(** What [convert_to_model_response_object] hands back: a response object,
    the generator [convert_to_streaming_response(response_object)] not yet
    started, or [None] when no branch of the dispatch is taken. *)
Inductive returned : Type :=
| Returned (r : response)
| Generator (response_object : dict)
| ReturnedNone.

Section Assembler.
Context `{Runtime}.

(** Lines 148-159: the effective tool calls of a choice. *)
Definition effective_tool_calls (message : value) : result tool_calls_v :=
  tool_calls <- get message "tool_calls" ;;
  if is_None tool_calls then Ok (RawToolCalls tool_calls)
  else
    items <- iterate tool_calls ;;
    _openai_tool_calls <- mapM tool_call_of_dict items ;;
    fixed_tool_calls <-
      _handle_invalid_parallel_tool_calls (Some _openai_tool_calls) ;;
    match fixed_tool_calls with
    | Some fixed => Ok (TypedToolCalls fixed)
    | None => Ok (RawToolCalls tool_calls)
    end.

(** [len(v)] *)
Definition py_len (v : value) : result nat :=
  match v with
  | VList l => Ok (length l)
  | VDict d => Ok (length d)
  | VStr s => Ok (String.length s)
  | _ => Raise TypeError
  end.

(** [tool_calls is not None and len(tool_calls) == 1] *)
Definition is_single (tool_calls : tool_calls_v) : result bool :=
  match tool_calls with
  | RawToolCalls VNone => Ok false
  | RawToolCalls v => n <- py_len v ;; Ok (n =? 1)%nat
  | TypedToolCalls l => Ok (length l =? 1)%nat
  end.

(** [tool_calls[0]["function"].get("arguments")] *)
Definition first_arguments (tool_calls : tool_calls_v) : result value :=
  match tool_calls with
  | TypedToolCalls (tc :: _) =>
      Ok (match fn_arguments (tc_function tc) with
          | Some s => VStr s
          | None => VNone
          end)
  | TypedToolCalls [] => Raise (Exception_ "IndexError")
  | RawToolCalls (VList (t :: _)) => f <- subscript t "function" ;; get f "arguments"
  | RawToolCalls (VList []) => Raise (Exception_ "IndexError")
  | RawToolCalls (VDict _) => Raise (KeyError "0")
  | RawToolCalls _ => Raise TypeError
  end.

(** Lines 161-174: the message of the JSON-mode branch, when it is taken. *)
Definition json_mode_message (convert_tool_call_to_json_mode : option bool)
    (tool_calls : tool_calls_v) : result (option Message) :=
  match convert_tool_call_to_json_mode with
  | Some true =>
      single <- is_single tool_calls ;;
      if single then
        json_mode_content_str <- first_arguments tool_calls ;;
        if is_None json_mode_content_str then Ok None
        else Ok (Some (Message_of_content json_mode_content_str))
      else Ok None
  | _ => Ok None
  end.

(** Lines 175-183: the normal message and the raw finish reason. *)
Definition normal_message (choice message : value) (tool_calls : tool_calls_v)
  : result (Message * value) :=
  content <- get message "content" ;;
  role <- subscript message "role" ;;
  function_call <- get message "function_call" ;;
  audio <- get message "audio" ;;
  finish_reason <- get choice "finish_reason" ;;
  Ok ({| msg_content := content;
         msg_role := py_or role (VStr "assistant");
         msg_function_call := function_call;
         msg_tool_calls := tool_calls;
         msg_audio := audio |}, finish_reason).

(** Lines 184-186. *)
Definition finish_reason_fallback (choice finish_reason : value)
  : result value :=
  if is_None finish_reason then
    finish_details <- get choice "finish_details" ;;
    Ok (py_or finish_details (VStr "stop"))
  else Ok finish_reason.

(** Loop body, lines 147-196. *)
Definition convert_choice (convert_tool_call_to_json_mode : option bool)
    (it : nat * value) : result Choices :=
  let '(idx, choice) := it in
  message_raw <- subscript choice "message" ;;
  tool_calls <- effective_tool_calls message_raw ;;
  json_mode <- json_mode_message convert_tool_call_to_json_mode tool_calls ;;
  '(message, finish_reason) <-
    (match json_mode with
     | Some m => Ok (m, VStr "stop")
     | None => normal_message choice message_raw tool_calls
     end) ;;
  finish_reason <- finish_reason_fallback choice finish_reason ;;
  logprobs <- get choice "logprobs" ;;
  enhancements <- get choice "enhancements" ;;
  Ok (Choices_init finish_reason idx message logprobs enhancements).

(** ["/" in model] and [model.split("/")[0]] on a string. *)
Fixpoint before_slash (s : string) : option string :=
  match s with
  | EmptyString => None
  | String c s' =>
      if Ascii.eqb c "/"%char then Some EmptyString
      else match before_slash s' with
           | Some p => Some (String c p)
           | None => None
           end
  end.

(** Lines 215-227: the model-name merge. The target's model is a string
    or [None]; on another value ["/" in model] is a membership test or a
    [TypeError], and [split] is missing. *)
Definition merge_model (response_object : dict) (model : value)
  : result value :=
  match dict_lookup "model" response_object with
  | None => Ok model
  | Some payload_model =>
      let rebuild (has_slash : bool) (prefix : result string) :=
        if has_slash && negb (is_None payload_model) then
          openai_compatible_provider <- prefix ;;
          match payload_model with
          | VStr pm =>
              Ok (VStr (openai_compatible_provider ++ "/" ++ pm)%string)
          | _ => Raise TypeError
          end
        else Ok model in
      match model with
      | VNone => Ok payload_model
      | VStr m =>
          match before_slash m with
          | Some p => rebuild true (Ok p)
          | None => rebuild false (Ok m)
          end
      | VList l =>
          rebuild (existsb (fun x => match x with
                                     | VStr s => s =? "/"
                                     | _ => false
                                     end) l)
                  (Raise AttributeError)
      | VDict d => rebuild (dict_mem "/" d) (Raise AttributeError)
      | _ => Raise TypeError
      end
  end.

(** Lines 229-233. *)
Definition response_ms (start_time end_time : option datetime)
    (old : option Q) : option Q :=
  match start_time, end_time with
  | Some s, Some e => Some (Qmake (e - s) 1000)
  | _, _ => old
  end.

(** Lines 243-247: unknown payload keys become attributes. ([model_fields]
    is taken to list the public fields of the record above.) *)
Definition copy_extra_keys (response_object : dict) (extra : dict) : dict :=
  let special_keys := model_fields ++ ["usage"] in
  fold_left
    (fun acc kv =>
       if existsb (String.eqb (fst kv)) special_keys then acc
       else dict_set (fst kv) (snd kv) acc)
    response_object extra.

(** Lines 135-249: the completion branch. *)
Definition convert_completion (response_object : option dict)
    (model_response_object : option ModelResponse) (stream : bool)
    (start_time end_time : option datetime) (hidden_params : dict)
    (_response_headers : option dict)
    (convert_tool_call_to_json_mode : option bool) : result returned :=
  match response_object, model_response_object with
  | Some ro, Some mro =>
      if stream then Ok (Generator ro)
      else
        choices <- subscript (VDict ro) "choices" ;;
        if is_None choices || negb (is_Iterable choices)
        then Raise AssertionError
        else
          items <- iterate choices ;;
          choice_list <-
            mapM (convert_choice convert_tool_call_to_json_mode)
                 (enumerate items) ;;
          usage <-
            (match dict_lookup "usage" ro with
             | Some u =>
                 if is_None u then Ok (mr_usage mro)
                 else usage_object <- usage_of_dict u ;; Ok (Some usage_object)
             | None => Ok (mr_usage mro)
             end) ;;
          let created :=
            match dict_lookup "created" ro with
            | Some c => py_or c (VInt time_now)
            | None => mr_created mro
            end in
          let id :=
            match dict_lookup "id" ro with
            | Some i => py_or i (VStr uuid4)
            | None => mr_id mro
            end in
          let system_fingerprint :=
            match dict_lookup "system_fingerprint" ro with
            | Some f => f
            | None => mr_system_fingerprint mro
            end in
          model <- merge_model ro (mr_model mro) ;;
          let hidden :=
            dict_update
              (match mr_hidden_params mro with Some h => h | None => [] end)
              hidden_params in
          Ok (Returned (RModel
            {| mr_choices := NonStreaming choice_list;
               mr_usage := usage;
               mr_created := created;
               mr_id := id;
               mr_system_fingerprint := system_fingerprint;
               mr_model := model;
               mr_response_ms :=
                 response_ms start_time end_time (mr_response_ms mro);
               mr_hidden_params := Some hidden;
               mr_response_headers :=
                 match _response_headers with
                 | Some h => Some h
                 | None => mr_response_headers mro
                 end;
               mr_extra := copy_extra_keys ro (mr_extra mro) |}))
  | _, _ => Raise (Exception_ "Error in response object format")
  end.

(** Lines 266-281: the image-generation branch. *)
Definition convert_image (response_object : option dict)
    (model_response_object : option ImageResponse) (hidden_params : dict)
  : result returned :=
  match response_object with
  | None => Raise (Exception_ "Error in response object format")
  | Some ro =>
      let mro := match model_response_object with
                 | Some m => m
                 | None => new_image_response
                 end in
      Ok (Returned (RImage
        {| img_created := match dict_lookup "created" ro with
                          | Some c => c
                          | None => img_created mro
                          end;
           img_data := match dict_lookup "data" ro with
                       | Some d => d
                       | None => img_data mro
                       end;
           img_hidden_params := Some hidden_params |}))
  end.

(** Lines 286-306: the audio-transcription branch. *)
Definition convert_transcription (response_object : option dict)
    (model_response_object : option TranscriptionResponse)
    (hidden_params : dict) (_response_headers : option dict)
  : result returned :=
  match response_object with
  | None => Raise (Exception_ "Error in response object format")
  | Some ro =>
      let mro := match model_response_object with
                 | Some m => m
                 | None => new_transcription_response
                 end in
      let optional_keys := ["language"; "task"; "duration"; "words"; "segments"] in
      Ok (Returned (RTranscription
        {| tr_attrs :=
             fold_left (fun acc key => copy_if_present key ro acc)
                       ("text" :: optional_keys) (tr_attrs mro);
           tr_hidden_params := Some hidden_params;
           tr_response_headers :=
             match _response_headers with
             | Some h => Some h
             | None => tr_response_headers mro
             end |}))
  end.

(** Lines 110-128: the error-surface check. It raises the exception that
    carries [status_code] and [message] ([json.dumps] may itself raise on
    a message that is not serialisable), and passes when the payload
    carries no error. *)
Definition check_error (response_object : option dict) : result unit :=
  match response_object with
  | Some ro =>
      match dict_lookup "error" ro with
      | Some error =>
          if is_None error then Ok tt
          else
            let status_code := VInt 422 in
            let message := "Error in response object" in
            match error with
            | VDict e =>
                let status_code :=
                  match dict_lookup "code" e with
                  | Some c => c
                  | None => status_code
                  end in
                message <-
                  (match dict_lookup "message" e with
                   | Some (VDict m) => dumps (VDict m)
                   | Some m => Ok (py_str m)
                   | None => Ok message
                   end) ;;
                Raise (ResponseError status_code message)
            | _ => Raise (ResponseError status_code message)
            end
      | None => Ok tt
      end
  | None => Ok tt
  end.

(** Lines 130-318: the dispatch inside [try], before the handler. *)
Definition dispatch (response_object : option dict)
    (model_response_object : option response) (response_type : string)
    (stream : bool) (start_time end_time : option datetime)
    (hidden_params : dict) (_response_headers : option dict)
    (convert_tool_call_to_json_mode : option bool) : result returned :=
  let as_model := match model_response_object with
                  | None => Some None
                  | Some (RModel m) => Some (Some m)
                  | _ => None end in
  let as_embedding := match model_response_object with
                      | None => Some None
                      | Some (REmbedding e) => Some (Some e)
                      | _ => None end in
  let as_image := match model_response_object with
                  | None => Some None
                  | Some (RImage i) => Some (Some i)
                  | _ => None end in
  let as_transcription := match model_response_object with
                          | None => Some None
                          | Some (RTranscription t) => Some (Some t)
                          | _ => None end in
  let as_rerank := match model_response_object with
                   | None => Some None
                   | Some (RRerank r) => Some (Some r)
                   | _ => None end in
  match response_type =? "completion", as_model with
  | true, Some mro =>
      convert_completion response_object mro stream start_time end_time
        hidden_params _response_headers convert_tool_call_to_json_mode
  | _, _ =>
  match response_type =? "embedding", as_embedding with
  | true, Some mro =>
      e <- convert_dict_to_embedding_response mro response_object
             start_time end_time hidden_params _response_headers ;;
      Ok (Returned (REmbedding e))
  | _, _ =>
  match response_type =? "image_generation", as_image with
  | true, Some mro => convert_image response_object mro hidden_params
  | _, _ =>
  match response_type =? "audio_transcription", as_transcription with
  | true, Some mro =>
      convert_transcription response_object mro hidden_params _response_headers
  | _, _ =>
  match response_type =? "rerank", as_rerank with
  | true, Some mro =>
      r <- convert_dict_to_rerank_response mro response_object ;;
      Ok (Returned (RRerank r))
  | _, _ => Ok ReturnedNone
  end end end end end.

Definition convert_to_model_response_object
    (response_object : option dict)
    (model_response_object : option response) (response_type : string)
    (stream : bool) (start_time end_time : option datetime)
    (hidden_params : option dict) (_response_headers : option dict)
    (convert_tool_call_to_json_mode : option bool) : result returned :=
  (* hidden_params = hidden_params or {} *)
  let hidden_params :=
    match hidden_params with
    | Some (kv :: hp) => kv :: hp
    | _ => []
    end in
  let hidden_params :=
    match _response_headers with
    | Some h =>
        match _set_headers_in_hidden_params (Some hidden_params) h with
        | Some hp => hp
        | None => hidden_params
        end
    | None => hidden_params
    end in
  match check_error response_object with
  | Raise raised_exception => Raise raised_exception
  | Ok _ =>
      match dispatch response_object model_response_object response_type
              stream start_time end_time hidden_params _response_headers
              convert_tool_call_to_json_mode with
      | Ok r => Ok r
      | Raise e => Raise (InvalidResponseObject e)
      end
  end.

End Assembler.

(** ** An executable runtime

    A JSON reader and writer for the fragment without floating-point
    numbers and without [\u] escapes (ASCII text), [repr], and constructors
    that keep the fields they are given. It serves to run the model on
    concrete payloads; the general theorems hold for every [Runtime]. *)

Module PyRuntime.

Local Open Scope char_scope.

Definition dquote : ascii := "034".
Definition backslash : ascii := "092".

Definition is_ws (c : ascii) : bool :=
  (c =? " ") || (c =? "009") || (c =? "010") || (c =? "013").

Fixpoint skip_ws (l : list ascii) : list ascii :=
  match l with
  | c :: r => if is_ws c then skip_ws r else l
  | [] => []
  end.

Definition is_digit (c : ascii) : bool :=
  let n := nat_of_ascii c in (48 <=? n)%nat && (n <=? 57)%nat.

Fixpoint take_digits (l : list ascii) (acc : Z) : Z * list ascii :=
  match l with
  | c :: r =>
      if is_digit c
      then take_digits r (acc * 10 + Z.of_nat (nat_of_ascii c - 48))%Z
      else (acc, l)
  | [] => (acc, [])
  end.

(** An integer literal; a fraction or an exponent is outside the fragment. *)
Definition parse_int (l : list ascii) : option (Z * list ascii) :=
  let '(neg, l) := match l with
                   | "-" :: r => (true, r)
                   | _ => (false, l)
                   end in
  match l with
  | c :: r =>
      if is_digit c then
        let '(n, rest) := if c =? "0" then (0%Z, r) else take_digits l 0 in
        match rest with
        | "." :: _ | "e" :: _ | "E" :: _ => None
        | _ => Some (if neg then (- n)%Z else n, rest)
        end
      else None
  | [] => None
  end.

Definition unescape (c : ascii) : option ascii :=
  if c =? dquote then Some dquote
  else if c =? backslash then Some backslash
  else if c =? "/" then Some "/"
  else if c =? "b" then Some "008"
  else if c =? "f" then Some "012"
  else if c =? "n" then Some "010"
  else if c =? "r" then Some "013"
  else if c =? "t" then Some "009"
  else None.

(** The characters after an opening quote, up to the closing one. *)
Fixpoint parse_string (l : list ascii) : option (string * list ascii) :=
  match l with
  | [] => None
  | c :: r =>
      if c =? dquote then Some (EmptyString, r)
      else if c =? backslash then
        match r with
        | e :: r' =>
            match unescape e, parse_string r' with
            | Some ch, Some (s, rest) => Some (String ch s, rest)
            | _, _ => None
            end
        | [] => None
        end
      else if (nat_of_ascii c <? 32)%nat then None
      else match parse_string r with
           | Some (s, rest) => Some (String c s, rest)
           | None => None
           end
  end.

Fixpoint parse_value (fuel : nat) (l : list ascii)
  : option (value * list ascii) :=
  match fuel with
  | O => None
  | S fuel =>
      match skip_ws l with
      | "n" :: "u" :: "l" :: "l" :: r => Some (VNone, r)
      | "t" :: "r" :: "u" :: "e" :: r => Some (VBool true, r)
      | "f" :: "a" :: "l" :: "s" :: "e" :: r => Some (VBool false, r)
      | "[" :: r =>
          match skip_ws r with
          | "]" :: r' => Some (VList [], r')
          | _ => match parse_elements fuel r with
                 | Some (vs, rest) => Some (VList vs, rest)
                 | None => None
                 end
          end
      | "{" :: r =>
          match skip_ws r with
          | "}" :: r' => Some (VDict [], r')
          | _ => match parse_members fuel r with
                 | Some (kvs, rest) =>
                     Some (VDict (fold_left
                                    (fun d kv => dict_set (fst kv) (snd kv) d)
                                    kvs []), rest)
                 | None => None
                 end
          end
      | c :: r =>
          if c =? dquote then
            match parse_string r with
            | Some (s, rest) => Some (VStr s, rest)
            | None => None
            end
          else match parse_int (c :: r) with
               | Some (n, rest) => Some (VInt n, rest)
               | None => None
               end
      | [] => None
      end
  end
with parse_elements (fuel : nat) (l : list ascii)
  : option (list value * list ascii) :=
  match fuel with
  | O => None
  | S fuel =>
      match parse_value fuel l with
      | Some (v, rest) =>
          match skip_ws rest with
          | "," :: r =>
              match parse_elements fuel r with
              | Some (vs, rest') => Some (v :: vs, rest')
              | None => None
              end
          | "]" :: r => Some ([v], r)
          | _ => None
          end
      | None => None
      end
  end
with parse_members (fuel : nat) (l : list ascii)
  : option (list (string * value) * list ascii) :=
  match fuel with
  | O => None
  | S fuel =>
      match skip_ws l with
      | q :: r =>
          if q =? dquote then
            match parse_string r with
            | Some (k, rest) =>
                match skip_ws rest with
                | ":" :: r1 =>
                    match parse_value fuel r1 with
                    | Some (v, rest1) =>
                        match skip_ws rest1 with
                        | "," :: r2 =>
                            match parse_members fuel r2 with
                            | Some (kvs, rest2) => Some ((k, v) :: kvs, rest2)
                            | None => None
                            end
                        | "}" :: r2 => Some ([(k, v)], r2)
                        | _ => None
                        end
                    | None => None
                    end
                | _ => None
                end
            | None => None
            end
          else None
      | [] => None
      end
  end.

Definition loads (s : string) : option value :=
  let l := list_ascii_of_string s in
  match parse_value (2 * length l + 2) l with
  | Some (v, rest) =>
      match skip_ws rest with
      | [] => Some v
      | _ => None
      end
  | None => None
  end.

Local Open Scope string_scope.

Definition hex_digit (n : nat) : ascii :=
  ascii_of_nat (if (n <? 10)%nat then 48 + n else 87 + n).

Definition str1 (c : ascii) : string := String c EmptyString.

Definition escape (c : ascii) : string :=
  if Ascii.eqb c dquote then String backslash (str1 dquote)
  else if Ascii.eqb c backslash then String backslash (str1 backslash)
  else if Ascii.eqb c "010" then String backslash "n"
  else if Ascii.eqb c "013" then String backslash "r"
  else if Ascii.eqb c "009" then String backslash "t"
  else if Ascii.eqb c "008" then String backslash "b"
  else if Ascii.eqb c "012" then String backslash "f"
  else if (nat_of_ascii c <? 32)%nat then
    String backslash
      ("u00" ++ str1 (hex_digit (nat_of_ascii c / 16))
             ++ str1 (hex_digit (nat_of_ascii c mod 16)))
  else str1 c.

Definition quote (s : string) : string :=
  str1 dquote ++ String.concat EmptyString (map escape (list_ascii_of_string s)) ++ str1 dquote.

Definition Z_to_string (n : Z) : string :=
  NilEmpty.string_of_int (Z.to_int n).

(** [json.dumps] with its default separators. An object of a class is not
    serialisable. *)
Fixpoint dumps (v : value) : option string :=
  match v with
  | VNone => Some "null"
  | VBool true => Some "true"
  | VBool false => Some "false"
  | VInt n => Some (Z_to_string n)
  | VStr s => Some (quote s)
  | VList l =>
      let fix items (l : list value) : option (list string) :=
        match l with
        | [] => Some []
        | x :: xs =>
            match dumps x, items xs with
            | Some s, Some ss => Some (s :: ss)
            | _, _ => None
            end
        end in
      match items l with
      | Some ss => Some ("[" ++ String.concat ", " ss ++ "]")
      | None => None
      end
  | VDict d =>
      let fix members (d : list (string * value)) : option (list string) :=
        match d with
        | [] => Some []
        | (k, x) :: xs =>
            match dumps x, members xs with
            | Some s, Some ss => Some ((quote k ++ ": " ++ s) :: ss)
            | _, _ => None
            end
        end in
      match members d with
      | Some ss => Some ("{" ++ String.concat ", " ss ++ "}")
      | None => None
      end
  | VObj _ _ => None
  end.

(** [repr] of a string: single quotes, unless the text has one and has no
    double quote. *)
Definition has_char (c : ascii) (s : string) : bool :=
  existsb (Ascii.eqb c) (list_ascii_of_string s).

Definition repr_string (s : string) : string :=
  let q := if has_char "039" s && negb (has_char dquote s)
           then dquote else "039"%char in
  let esc (c : ascii) : string :=
    if Ascii.eqb c q || Ascii.eqb c backslash then String backslash (str1 c)
    else if Ascii.eqb c "010" then String backslash "n"
    else if Ascii.eqb c "013" then String backslash "r"
    else if Ascii.eqb c "009" then String backslash "t"
    else str1 c in
  str1 q ++ String.concat EmptyString (map esc (list_ascii_of_string s)) ++ str1 q.

Fixpoint repr (v : value) : string :=
  match v with
  | VNone => "None"
  | VBool true => "True"
  | VBool false => "False"
  | VInt n => Z_to_string n
  | VStr s => repr_string s
  | VList l =>
      "[" ++ String.concat ", " ((fix items (l : list value) : list string :=
                             match l with
                             | [] => []
                             | x :: xs => repr x :: items xs
                             end) l) ++ "]"
  | VDict d =>
      "{" ++ String.concat ", "
               ((fix members (d : list (string * value)) : list string :=
                   match d with
                   | [] => []
                   | (k, x) :: xs =>
                       (repr_string k ++ ": " ++ repr x) :: members xs
                   end) d) ++ "}"
  | VObj cls attrs =>
      cls ++ "("
          ++ String.concat ", "
               ((fix members (d : list (string * value)) : list string :=
                   match d with
                   | [] => []
                   | (k, x) :: xs => (k ++ "=" ++ repr x) :: members xs
                   end) attrs) ++ ")"
  end.

(** The typed tool call of a raw record: [function] is required, [id]
    defaults to a fresh identifier and [type] to "function". *)
Definition tool_call (fresh : string) (v : value)
  : result ChatCompletionMessageToolCall :=
  match v with
  | VDict d =>
      match dict_lookup "function" d with
      | Some (VDict f) =>
          match dict_get "name" f, dict_get "arguments" f with
          | VStr n, VStr a =>
              Ok {| tc_id := match dict_get "id" d with
                             | VStr i => i
                             | _ => fresh
                             end;
                    tc_type := match dict_get "type" d with
                               | VStr t => t
                               | _ => "function"
                               end;
                    tc_function := {| fn_name := n; fn_arguments := Some a |} |}
          | VStr n, VNone =>
              Ok {| tc_id := match dict_get "id" d with
                             | VStr i => i
                             | _ => fresh
                             end;
                    tc_type := match dict_get "type" d with
                               | VStr t => t
                               | _ => "function"
                               end;
                    tc_function := {| fn_name := n; fn_arguments := None |} |}
          | _, _ => Raise ValidationError
          end
      | _ => Raise TypeError
      end
  | _ => Raise TypeError
  end.

Definition delta_tool_call (d : dict) : result value :=
  if dict_mem "function" d && dict_mem "index" d
  then Ok (VObj "ChatCompletionDeltaToolCall" d)
  else Raise ValidationError.

Definition usage (v : value) : result Usage :=
  match v with
  | VDict d =>
      let field k := match dict_lookup k d with
                     | Some x => x
                     | None => VInt 0
                     end in
      Ok {| completion_tokens := field "completion_tokens";
            prompt_tokens := field "prompt_tokens";
            total_tokens := field "total_tokens" |}
  | _ => Raise TypeError
  end.

Definition empty_response : ModelResponse :=
  {| mr_choices := Streaming [];
     mr_usage := None;
     mr_created := VInt 1700000000;
     mr_id := VStr "chatcmpl-00000000";
     mr_system_fingerprint := VNone;
     mr_model := VNone;
     mr_response_ms := None;
     mr_hidden_params := Some [];
     mr_response_headers := None;
     mr_extra := [] |}.

End PyRuntime.

#[export] Instance py_runtime : Runtime := {|
  json_loads := PyRuntime.loads;
  json_dumps := PyRuntime.dumps;
  py_repr := PyRuntime.repr;
  tool_call_of_dict := PyRuntime.tool_call "call_00000000";
  delta_tool_call_of_dict := PyRuntime.delta_tool_call;
  usage_of_dict := PyRuntime.usage;
  time_now := 1700000000;
  uuid4 := "00000000-0000-4000-8000-000000000000";
  model_fields :=
    ["id"; "choices"; "created"; "model"; "object"; "system_fingerprint"];
  new_streaming_response := PyRuntime.empty_response;
  new_image_response :=
    {| img_created := VInt 1700000000; img_data := VList [];
       img_hidden_params := Some [] |};
  new_transcription_response :=
    {| tr_attrs := []; tr_hidden_params := Some [];
       tr_response_headers := None |};
  convert_dict_to_embedding_response :=
    fun mro ro _ _ _ _ =>
      match ro with
      | Some r => Ok r
      | None => Raise (Exception_ "Error in response object format")
      end;
  convert_dict_to_rerank_response :=
    fun mro ro =>
      match ro with
      | Some r => Ok r
      | None => Raise (Exception_ "Error in response object format")
      end
|}.

(** ** Concrete payloads *)

(** The JSON text of a value (the argument string of a tool call). *)
Definition arguments_json (v : value) : string :=
  match PyRuntime.dumps v with
  | Some s => s
  | None => EmptyString
  end.

Definition tool_use (recipient_name : string) (parameters : dict) : value :=
  VDict [("recipient_name", VStr recipient_name);
         ("parameters", VDict parameters)].

(** A hallucinated parallel call packing two pseudo-calls. *)
Definition parallel_call (id a b : string) : ChatCompletionMessageToolCall :=
  {| tc_id := id;
     tc_type := "function";
     tc_function :=
       {| fn_name := SENTINEL;
          fn_arguments :=
            Some (arguments_json
                    (VDict [("tool_uses",
                             VList [tool_use ("functions." ++ a)%string
                                             [("city", VStr "Paris")];
                                    tool_use b [("n", VInt 3)]])])) |} |}.

Definition plain_call (id name arguments : string)
  : ChatCompletionMessageToolCall :=
  {| tc_id := id;
     tc_type := "function";
     tc_function := {| fn_name := name; fn_arguments := Some arguments |} |}.

Definition expanded_call (id name : string) (parameters : dict)
  : ChatCompletionMessageToolCall :=
  plain_call id name (arguments_json (VDict parameters)).

Definition raw_tool_call (id name : string) : value :=
  VDict [("id", VStr id); ("type", VStr "function");
         ("function", VDict [("name", VStr name);
                             ("arguments", VStr (arguments_json (VDict [])))])].

(** A cached completion whose single choice carries two tool calls
    without an [index]. *)
Definition tool_call_payload : dict :=
  [("id", VStr "chatcmpl-1");
   ("choices",
    VList [VDict [("index", VInt 0);
                  ("message",
                   VDict [("role", VStr "assistant");
                          ("content", VNone);
                          ("tool_calls",
                           VList [raw_tool_call "call_1" "get_weather";
                                  raw_tool_call "call_2" "get_time"])]);
                  ("finish_reason", VStr "tool_calls")]])].

Definition bad_request_payload : dict :=
  [("error", VDict [("code", VInt 400); ("message", VStr "bad request")])].

(** The status code the error-surface check reports (section 4.4):
    422 unless the error is a dict with a [code]. *)
Definition error_status (error : value) : value :=
  match error with
  | VDict e =>
      match dict_lookup "code" e with
      | Some c => c
      | None => VInt 422
      end
  | _ => VInt 422
  end.

(** The payload carries a non-null [error]. *)
Definition has_error (response_object : option dict) : bool :=
  match response_object with
  | Some ro =>
      match dict_lookup "error" ro with
      | Some e => negb (is_None e)
      | None => false
      end
  | None => false
  end.

(** The response kind a target object belongs to. *)
Definition kind_of (r : response) : string :=
  match r with
  | RModel _ => "completion"
  | REmbedding _ => "embedding"
  | RImage _ => "image_generation"
  | RTranscription _ => "audio_transcription"
  | RRerank _ => "rerank"
  end.

(** A choice on which the asynchronous adapter rewrites the tool calls. *)
Definition choice_has_raw_tool_calls (choice : value) : bool :=
  match choice with
  | VDict c =>
      match dict_lookup "message" c with
      | Some (VDict message) => has_raw_tool_calls message
      | _ => false
      end
  | _ => false
  end.

(** The typed tool call the executable runtime builds for a raw one. *)
Definition typed_tool_call (id name : string) (index : Z) : value :=
  VObj "ChatCompletionDeltaToolCall"
    [("id", VStr id); ("type", VStr "function");
     ("function", VDict [("name", VStr name);
                         ("arguments", VStr (arguments_json (VDict [])))]);
     ("index", VInt index)].

(** [tool_call_payload] as the asynchronous adapter leaves it. *)
Definition tool_call_payload_after : dict :=
  [("id", VStr "chatcmpl-1");
   ("choices",
    VList [VDict [("index", VInt 0);
                  ("message",
                   VDict [("role", VStr "assistant");
                          ("content", VNone);
                          ("tool_calls",
                           VList [typed_tool_call "call_1" "get_weather" 0;
                                  typed_tool_call "call_2" "get_time" 1])]);
                  ("finish_reason", VStr "tool_calls")]])].

(** The tool calls of each choice's delta in a streaming response. *)
Definition delta_tool_calls (r : result ModelResponse) : option (list value) :=
  match r with
  | Ok m =>
      match mr_choices m with
      | Streaming l => Some (map (fun sc => d_tool_calls (sc_delta sc)) l)
      | NonStreaming _ => None
      end
  | Raise _ => None
  end.

(** A completion whose message has no [role] key. *)
Definition no_role_payload : dict :=
  [("choices",
    VList [VDict [("message", VDict [("content", VStr "hi")]);
                  ("finish_reason", VStr "stop")]])].

(** A choice with an empty role and [finish_details] in place of
    [finish_reason]. *)
Definition vision_choice : dict :=
  [("message", VDict [("role", VStr EmptyString); ("content", VStr "hi")]);
   ("finish_details", VStr "max_tokens")].

(** ** The payload up to the tool calls of its messages *)

Definition dict_remove (k : string) (d : dict) : dict :=
  filter (fun kv => negb (fst kv =? k)) d.






(** A streaming choice as the asynchronous adapter builds it: without
    [enhancements]. *)
Definition without_enhancements (sc : StreamingChoices) : StreamingChoices :=
  {| sc_finish_reason := sc_finish_reason sc;
     sc_index := sc_index sc;
     sc_delta := sc_delta sc;
     sc_logprobs := sc_logprobs sc;
     sc_enhancements := VNone |}.

Definition result_map {A B} (f : A -> B) (r : result A) : result B :=
  match r with
  | Ok a => Ok (f a)
  | Raise e => Raise e
  end.

Definition drop_enhancements (m : ModelResponse) : ModelResponse :=
  set_choices
    (match mr_choices m with
     | Streaming l => Streaming (map without_enhancements l)
     | NonStreaming l => NonStreaming l
     end) m.

(** No choice of the payload has tool calls the asynchronous adapter
    rewrites. *)
Definition no_raw_tool_calls (response_object : dict) : Prop :=
  forall l, dict_lookup "choices" response_object = Some (VList l) ->
            forallb (fun c => negb (choice_has_raw_tool_calls c)) l = true.

(** One pseudo-call, well formed: the typed call it becomes. *)
Definition expands_to `{Runtime} (tool_call : ChatCompletionMessageToolCall)
    (position : nat) (pseudo : value)
    (fixed : ChatCompletionMessageToolCall) : Prop :=
  exists recipient parameters name arguments,
    subscript pseudo "parameters" = Ok parameters
    /\ subscript pseudo "recipient_name" = Ok (VStr recipient)
    /\ strip_functions (VStr recipient) = Ok name
    /\ json_dumps parameters = Some arguments
    /\ fixed = {| tc_id := (tc_id tool_call ++ "_" ++ decimal position)%string;
                  tc_type := "function";
                  tc_function := {| fn_name := name;
                                    fn_arguments := Some arguments |} |}.

(** ** [core_helpers]: the other helpers

    An instance of a class is taken to have no container protocol, as in
    [iterate] and [subscript]: [k in obj] raises [TypeError]. *)

(** [p in s] on strings. *)
Fixpoint contains_substring (p s : string) : bool :=
  prefix p s
  || match s with
     | EmptyString => false
     | String _ s' => contains_substring p s'
     end.

(** [k in v] for a string [k]. *)
Definition contains (k : string) (v : value) : result bool :=
  match v with
  | VDict d => Ok (dict_mem k d)
  | VStr s => Ok (contains_substring k s)
  | VList l =>
      Ok (existsb (fun x => match x with VStr s => s =? k | _ => false end) l)
  | _ => Raise TypeError
  end.

(** [for x in l: f(x)] where [f] may write into [x]: the list afterwards
    (also when the loop stops on an exception). *)
Fixpoint for_each (f : value -> value * result unit) (l : list value)
  : list value * result unit :=
  match l with
  | [] => ([], Ok tt)
  | x :: rest =>
      match f x with
      | (x', Raise e) => (x' :: rest, Raise e)
      | (x', Ok _) => let '(rest', r) := for_each f rest in (x' :: rest', r)
      end
  end.

(** The same loop over any iterable: only the elements of a list are
    objects of the payload; a dict yields its keys and a string its
    characters. *)
Definition for_each_in (f : value -> value * result unit) (v : value)
  : value * result unit :=
  match v with
  | VList l => let '(l', r) := for_each f l in (VList l', r)
  | _ =>
      match iterate v with
      | Ok items => (v, snd (for_each f items))
      | Raise e => (v, Raise e)
      end
  end.

(** Lines 51-52 and 58-59: [if "index" in tool_call: tool_call.pop("index")].
    A list that holds "index" and a string that contains it have no such
    [pop]. *)
Definition pop_index (tool_call : value) : value * result unit :=
  match contains "index" tool_call with
  | Raise e => (tool_call, Raise e)
  | Ok false => (tool_call, Ok tt)
  | Ok true =>
      match tool_call with
      | VDict d => (VDict (dict_remove "index" d), Ok tt)
      | VList _ => (tool_call, Raise TypeError)
      | _ => (tool_call, Raise AttributeError)
      end
  end.

(** Lines 55-59: the body of the loop over the messages. *)
Definition pop_index_in_message (message : value) : value * result unit :=
  match contains "tool_calls" message with
  | Raise e => (message, Raise e)
  | Ok false => (message, Ok tt)
  | Ok true =>
      match message with
      | VDict m =>
          match dict_lookup "tool_calls" m with
          | Some tool_calls =>
              let '(tool_calls', r) := for_each_in pop_index tool_calls in
              (VDict (dict_set "tool_calls" tool_calls' m), r)
          | None => (message, Raise (KeyError "tool_calls"))
          end
      | _ => (message, Raise TypeError)
      end
  end.

(** [remove_index_from_tool_calls(messages, tool_calls)]: the two arguments
    afterwards, and [None] or the exception. *)
Definition remove_index_from_tool_calls (messages tool_calls : value)
  : (value * value) * result unit :=
  let '(tool_calls', r) := for_each_in pop_index tool_calls in
  match r with
  | Raise e => ((messages, tool_calls'), Raise e)
  | Ok _ =>
      let '(messages', r') := for_each_in pop_index_in_message messages in
      ((messages', tool_calls'), r')
  end.

(** [d.get(k, default)] *)
Definition get_default (v : value) (k : string) (default : value)
  : result value :=
  match v with
  | VDict d =>
      Ok (match dict_lookup k d with Some x => x | None => default end)
  | _ => Raise AttributeError
  end.

Definition get_litellm_metadata_from_kwargs (kwargs : value) : result value :=
  litellm_params <- get_default kwargs "litellm_params" (VDict []) ;;
  get_default litellm_params "metadata" (VDict []).

Definition PARENT_SPAN : string := "litellm_parent_otel_span".

(** The body of the [try] of [_get_parent_otel_span_from_kwargs]. *)
Definition parent_otel_span_body (kwargs : value) : result value :=
  if is_None kwargs then Ok VNone
  else
    litellm_params <- get kwargs "litellm_params" ;;
    metadata <- get kwargs "metadata" ;;
    let _metadata := py_or metadata (VDict []) in
    in_metadata <- contains PARENT_SPAN _metadata ;;
    if in_metadata then subscript _metadata PARENT_SPAN
    else
      in_params <-
        (if is_None litellm_params then Ok false
         else
           params_metadata <- get litellm_params "metadata" ;;
           if is_None params_metadata then Ok false
           else
             params_metadata <-
               get_default litellm_params "metadata" (VDict []) ;;
             contains PARENT_SPAN params_metadata) ;;
      if in_params then
        params_metadata <- subscript litellm_params "metadata" ;;
        subscript params_metadata PARENT_SPAN
      else
        in_kwargs <- contains PARENT_SPAN kwargs ;;
        if in_kwargs then subscript kwargs PARENT_SPAN else Ok VNone.

(** The bare [except] turns every exception into [None]. *)
Definition _get_parent_otel_span_from_kwargs (kwargs : value) : value :=
  match parent_otel_span_body kwargs with
  | Ok span => span
  | Raise _ => VNone
  end.

(** ** Vocabulary of the further properties *)

(** The four rate-limit headers of [_get_openai_headers]. *)
Definition OPENAI_HEADERS : list string :=
  ["x-ratelimit-limit-requests"; "x-ratelimit-remaining-requests";
   "x-ratelimit-limit-tokens"; "x-ratelimit-remaining-tokens"].

(** A raw header filed under its provider-prefixed key. *)
Definition provider_key (kv : string * value) : string * value :=
  (("llm_provider-" ++ fst kv)%string, snd kv).

(** A list of tool-call records, each a dict. *)
Definition is_dict (v : value) : bool :=
  match v with VDict _ => true | _ => false end.

Definition dict_list (v : value) : bool :=
  match v with
  | VList l => forallb is_dict l
  | _ => false
  end.

(** A message dict whose [tool_calls], when it has some, is such a list. *)
Definition plain_message (v : value) : bool :=
  match v with
  | VDict m =>
      match dict_lookup "tool_calls" m with
      | Some tool_calls => dict_list tool_calls
      | None => true
      end
  | _ => false
  end.

(** A value with the [index] key taken out of every tool call. *)
Definition without_index (tool_call : value) : value :=
  match tool_call with
  | VDict d => VDict (dict_remove "index" d)
  | v => v
  end.

Definition tool_calls_without_index (tool_calls : value) : value :=
  match tool_calls with
  | VList l => VList (map without_index l)
  | v => v
  end.

Definition message_without_index (message : value) : value :=
  match message with
  | VDict m =>
      match dict_lookup "tool_calls" m with
      | Some tool_calls =>
          VDict (dict_set "tool_calls" (tool_calls_without_index tool_calls) m)
      | None => message
      end
  | v => v
  end.




(** A place of the keyword arguments that holds no parent span: missing,
    null, or a dict without the key. *)
Definition lacks_span (v : option value) : bool :=
  match v with
  | None | Some VNone => true
  | Some (VDict d) => negb (dict_mem PARENT_SPAN d)
  | Some _ => false
  end.

(** The pseudo-calls [items], numbered from [k], expand to [fixed]. *)
Definition expansion `{Runtime} (tool_call : ChatCompletionMessageToolCall)
    (k : nat) (items : list value)
    (fixed : list ChatCompletionMessageToolCall) : Prop :=
  Forall2 (fun it c => expands_to tool_call (fst it) (snd it) c)
          (enumerate_from k items) fixed.

(** A hallucinated parallel call whose arguments parse and hold the list
    [items] of well-formed pseudo-calls, which expand to [fixed]. *)
Definition packs `{Runtime} (tool_call : ChatCompletionMessageToolCall)
    (items : list value) (fixed : list ChatCompletionMessageToolCall) : Prop :=
  fn_name (tc_function tool_call) = SENTINEL
  /\ exists text args,
       fn_arguments (tc_function tool_call) = Some text
       /\ json_loads text = Some args
       /\ subscript args "tool_uses" = Ok (VList items)
       /\ expansion tool_call 0 items fixed.

(** A call with another name whose arguments parse. *)
Definition parsable_plain `{Runtime} (tc : ChatCompletionMessageToolCall)
  : Prop :=
  fn_name (tc_function tc) <> SENTINEL
  /\ exists s v, fn_arguments (tc_function tc) = Some s
                 /\ json_loads s = Some v.

(** A hallucinated parallel call that packs no pseudo-call. *)
Definition empty_parallel_call (id : string) : ChatCompletionMessageToolCall :=
  {| tc_id := id;
     tc_type := "function";
     tc_function :=
       {| fn_name := SENTINEL;
          fn_arguments :=
            Some (arguments_json (VDict [("tool_uses", VList [])])) |} |}.

(** The two pseudo-calls of [parallel_call id a b]. *)
Definition parallel_uses (a b : string) : list value :=
  [tool_use ("functions." ++ a)%string [("city", VStr "Paris")];
   tool_use b [("n", VInt 3)]].

(** A raw tool-call record as the asynchronous adapter leaves it: with
    its own [index], or its position when it had none. *)
Definition with_index (position : nat) (t : value) : value :=
  match t with
  | VDict d =>
      VDict (if dict_mem "index" d then d
             else dict_set "index" (VInt (Z.of_nat position)) d)
  | v => v
  end.

(** The usage record of the streaming adapters: missing counts are 0. *)
Definition usage_or_zero (u : dict) : Usage :=
  let count k := match dict_lookup k u with
                 | Some x => x
                 | None => VInt 0
                 end in
  {| completion_tokens := count "completion_tokens";
     prompt_tokens := count "prompt_tokens";
     total_tokens := count "total_tokens" |}.

(** The top-level fields a streaming adapter yields for a payload. *)
Definition top_level_copied `{Runtime} (ro : dict) (r : ModelResponse) : Prop :=
  let copied k (field : ModelResponse -> value) :=
    field r = match dict_lookup k ro with
              | Some v => v
              | None => field new_streaming_response
              end in
  copied "id" mr_id /\ copied "created" mr_created
  /\ copied "system_fingerprint" mr_system_fingerprint
  /\ copied "model" mr_model
  /\ match dict_lookup "usage" ro with
     | Some (VDict u) => mr_usage r = Some (usage_or_zero u)
     | Some VNone | None => mr_usage r = mr_usage new_streaming_response
     | Some _ => False
     end.

(** What the streaming adapters build for a payload choice: the fields
    of the message and the finish reason as they are. *)
Definition streams_as (choice : value) (sc : StreamingChoices) : Prop :=
  exists c m role,
    choice = VDict c
    /\ dict_lookup "message" c = Some (VDict m)
    /\ dict_lookup "role" m = Some role
    /\ d_role (sc_delta sc) = role
    /\ d_content (sc_delta sc) = dict_get "content" m
    /\ d_function_call (sc_delta sc) = dict_get "function_call" m
    /\ d_tool_calls (sc_delta sc) = dict_get "tool_calls" m
    /\ sc_finish_reason sc
       = (if is_None (dict_get "finish_reason" c)
          then dict_get "finish_details" c
          else dict_get "finish_reason" c)
    /\ sc_logprobs sc = dict_get "logprobs" c.

(** The response the synchronous adapter yields for [tool_call_payload],
    and the one the asynchronous adapter yields. *)
Definition tool_call_response : ModelResponse :=
  Eval vm_compute in
    match snd (convert_to_streaming_response (Some tool_call_payload)) with
    | Ok r => r
    | Raise _ => PyRuntime.empty_response
    end.

Definition tool_call_response_async : ModelResponse :=
  Eval vm_compute in
    match snd (convert_to_streaming_response_async (Some tool_call_payload)) with
    | Ok r => r
    | Raise _ => PyRuntime.empty_response
    end.

(** [raw_tool_call id name] once it has been given an [index]. *)
Definition indexed_tool_call (id name : string) (index : Z) : value :=
  VDict [("id", VStr id); ("type", VStr "function");
         ("function", VDict [("name", VStr name);
                             ("arguments", VStr (arguments_json (VDict [])))]);
         ("index", VInt index)].


(** A string without "/". *)
Definition no_slash (s : string) : Prop := before_slash s = None.

(** The keys [copy_extra_keys] never copies. *)
Definition special_key `{Runtime} (k : string) : bool :=
  existsb (String.eqb k) (model_fields ++ ["usage"]).

(** The payload keys the transcription branch copies. *)
Definition TRANSCRIPTION_KEYS : list string :=
  ["text"; "language"; "task"; "duration"; "words"; "segments"].

(** A completion with one choice and an unknown top-level key. *)
Definition hello_payload : dict :=
  [("choices",
    VList [VDict [("message", VDict [("role", VStr "assistant");
                                     ("content", VStr "hi")]);
                  ("finish_reason", VStr "stop")]]);
   ("created", VInt 0);
   ("id", VStr "chatcmpl-7");
   ("model", VStr "gpt-4-0613");
   ("service_tier", VStr "default")].

(** What the assembler returns for it. *)
Definition hello_response : ModelResponse :=
  Eval vm_compute in
    match convert_to_model_response_object (Some hello_payload)
            (Some (RModel PyRuntime.empty_response)) "completion" false
            None None None None None with
    | Ok (Returned (RModel m)) => m
    | _ => PyRuntime.empty_response
    end.

(** A choice whose message has one tool call and no role. *)
Definition json_mode_choice : dict :=
  [("message",
    VDict [("tool_calls", VList [raw_tool_call "call_1" "get_weather"])]);
   ("finish_reason", VStr "tool_calls")].

(** A completion with a tool call whose arguments are no JSON text. *)
Definition bad_arguments_choice : dict :=
  [("message",
    VDict [("role", VStr "assistant");
           ("tool_calls",
            VList [VDict [("id", VStr "call_1");
                          ("function",
                           VDict [("name", VStr "get_weather");
                                  ("arguments", VStr "not json")])]])])].

Definition bad_arguments_payload : dict :=
  [("choices", VList [VDict bad_arguments_choice])].

(** Messages and tool calls, some with an [index]. *)
Definition indexed_messages : list value :=
  [VDict [("role", VStr "assistant");
          ("tool_calls", VList [indexed_tool_call "call_1" "get_weather" 0])];
   VDict [("role", VStr "user"); ("content", VStr "hi")]].

Definition indexed_tool_calls : value :=
  VList [indexed_tool_call "call_1" "get_weather" 0;
         raw_tool_call "call_2" "get_time"].

(** * Theorems *)

(** C2: [map_finish_reason] is a total function on strings that agrees, on
    every input, with the specification's table read by exact
    (case-sensitive) string equality: the fourteen listed provider codes
    go to their canonical value and every other string is returned
    unchanged. *)
Theorem map_finish_reason_table (s : string) :
  map_finish_reason s = finish_reason_spec s.
Proof.
  unfold map_finish_reason, finish_reason_spec, finish_reason_table.
  cbn [table_lookup].
  repeat match goal with
  | |- context [String.eqb s ?k] =>
      destruct (String.eqb_spec s k) as [-> | ?]; [reflexivity |]
  end.
  reflexivity.
Qed.

(** A table entry is matched by case-sensitive equality only. *)
Example map_finish_reason_case_sensitive :
  map_finish_reason "STOP" = "stop" /\ map_finish_reason "Stop" = "Stop"
  /\ map_finish_reason "max_tokens " = "max_tokens ".
Proof. repeat split. Qed.

(** X25: the inputs mapped to "stop" are exactly the seven of the table,
    and "stop" itself through the fallback. *)
Lemma map_finish_reason_stop_iff (s : string) :
  map_finish_reason s = "stop"
  <-> In s ["stop_sequence"; "COMPLETE"; "eos_token";
            "FINISH_REASON_UNSPECIFIED"; "STOP"; "end_turn"; "ERROR"; "stop"].
Proof.
  split.
  - unfold map_finish_reason.
    repeat match goal with
    | |- context [String.eqb s ?k] =>
        destruct (String.eqb_spec s k) as [-> | ?];
          [cbn; first [discriminate | intros _; tauto] |]
    end.
    cbn. intros ->. tauto.
  - cbn. intros Hin.
    repeat (destruct Hin as [<- | Hin]; [reflexivity |]). contradiction.
Qed.

(** ** Header extraction *)

(** The example of section 8: a recognised key is kept as it is and every
    header is also filed under its provider-prefixed key. *)
Example headers_in_hidden_params :
  _set_headers_in_hidden_params (Some [])
    [("x-ratelimit-limit-tokens", VStr "10"); ("x-foo", VStr "bar")]
  = Some [("additional_headers",
           VDict [("llm_provider-x-ratelimit-limit-tokens", VStr "10");
                  ("llm_provider-x-foo", VStr "bar");
                  ("x-ratelimit-limit-tokens", VStr "10")])].
Proof. reflexivity. Qed.

(** ** Tool-call repair *)

Section RepairProperties.
Context `{Runtime}.

Lemma In_enumerate_from {A} (x : A) (l : list A) (k : nat) :
  In x l -> exists i, In (i, x) (enumerate_from k l).
Proof.
  revert k. induction l as [| y l IH]; intros k []; simpl.
  - subst. eauto.
  - destruct (IH (S k) H0) as [i Hi]. eauto.
Qed.

Lemma foldM_raises {A B} (f : A -> B -> result A) (l : list B) (x : B) :
  In x l ->
  (forall a, exists e, f a x = Raise e) ->
  forall a, exists e, foldM f l a = Raise e.
Proof.
  intros Hin Hx. induction l as [| y l IH]; [contradiction |].
  intros a. simpl. destruct Hin as [-> | Hin].
  - destruct (Hx a) as [e ->]. simpl. eauto.
  - destruct (f a y) as [a' | e]; simpl; eauto.
Qed.

Lemma collect_step_invalid r i tc s :
  fn_arguments (tc_function tc) = Some s ->
  json_loads s = None ->
  collect_step r (i, tc) = Raise JSONDecodeError.
Proof.
  intros Ha Hs. unfold collect_step, loads_arguments. rewrite Ha, Hs.
  reflexivity.
Qed.

Lemma collect_plain tcs k r :
  Forall (fun tc =>
            fn_name (tc_function tc) <> SENTINEL
            /\ exists s v, fn_arguments (tc_function tc) = Some s
                           /\ json_loads s = Some v) tcs ->
  foldM collect_step (enumerate_from k tcs) r = Ok r.
Proof.
  intros Hall. revert k. induction Hall as [| tc tcs [Hn (s & v & Ha & Hs)] _ IH];
    intros k; simpl; [reflexivity |].
  unfold loads_arguments. rewrite Ha, Hs. simpl.
  apply String.eqb_neq in Hn. rewrite Hn. simpl. apply IH.
Qed.

(** C10: the arguments of every call are parsed before its name is
    looked at, so a list holding a call whose arguments are not valid JSON
    makes the repair raise, whatever the names of the calls: in
    particular when no call is named "multi_tool_use.parallel". *)
Theorem repair_raises_on_invalid_arguments tool_calls tc s :
  In tc tool_calls ->
  fn_arguments (tc_function tc) = Some s ->
  json_loads s = None ->
  exists e, _handle_invalid_parallel_tool_calls (Some tool_calls) = Raise e.
Proof.
  intros Hin Ha Hs.
  destruct (In_enumerate_from tc tool_calls 0 Hin) as [i Hi].
  destruct (foldM_raises collect_step (enumerate tool_calls) (i, tc) Hi) with (a := @nil (nat * list ChatCompletionMessageToolCall))
    as [e He].
  - intros r. exists JSONDecodeError. now apply collect_step_invalid with s.
  - exists e. unfold _handle_invalid_parallel_tool_calls, collect_replacements.
    rewrite He. reflexivity.
Qed.

(** C8, as amended: on a list with no call named
    "multi_tool_use.parallel" in which every call's arguments parse as
    JSON, the repair records no replacement, performs no slice assignment
    and returns the list as it is; applying it again changes nothing. *)
Theorem repair_noop_without_sentinel tool_calls :
  Forall (fun tc =>
            fn_name (tc_function tc) <> SENTINEL
            /\ exists s v, fn_arguments (tc_function tc) = Some s
                           /\ json_loads s = Some v) tool_calls ->
  collect_replacements tool_calls = Ok []
  /\ _handle_invalid_parallel_tool_calls (Some tool_calls)
     = Ok (Some tool_calls).
Proof.
  intros Hall.
  assert (Hc : collect_replacements tool_calls = Ok [])
    by (apply collect_plain; exact Hall).
  split; [exact Hc |].
  unfold _handle_invalid_parallel_tool_calls. rewrite Hc. reflexivity.
Qed.

Lemma enumerate_from_app {A} (l1 l2 : list A) (k : nat) :
  enumerate_from k (l1 ++ l2)
  = enumerate_from k l1 ++ enumerate_from (k + length l1) l2.
Proof.
  revert k. induction l1 as [| x l1 IH]; intros k; simpl.
  - now rewrite Nat.add_0_r.
  - rewrite IH. now rewrite Nat.add_succ_r.
Qed.

Lemma foldM_app {A B} (f : A -> B -> result A) (l1 l2 : list B) (a : A) :
  foldM f (l1 ++ l2) a = (a' <- foldM f l1 a ;; foldM f l2 a').
Proof.
  revert a. induction l1 as [| x l1 IH]; intros a; simpl; [reflexivity |].
  destruct (f a x); simpl; [apply IH | reflexivity].
Qed.

Lemma expand_tool_use_ok i tool_call r position pseudo fixed :
  expands_to tool_call position pseudo fixed ->
  expand_tool_use i tool_call r (position, pseudo)
  = Ok (dd_append i fixed r).
Proof.
  intros (recipient & parameters & name & arguments & Hp & Hr & Hs & Hd & ->).
  unfold expand_tool_use, dumps. rewrite Hp, Hr. cbn [bind].
  rewrite Hs. cbn [bind]. rewrite Hd. reflexivity.
Qed.

Lemma collect_step_sentinel r i sentinel text args u0 u1 c0 c1 :
  fn_name (tc_function sentinel) = SENTINEL ->
  fn_arguments (tc_function sentinel) = Some text ->
  json_loads text = Some args ->
  subscript args "tool_uses" = Ok (VList [u0; u1]) ->
  expands_to sentinel 0 u0 c0 ->
  expands_to sentinel 1 u1 c1 ->
  collect_step r (i, sentinel) = Ok (dd_append i c1 (dd_append i c0 r)).
Proof.
  intros Hn Ht Hl Hu H0 H1.
  unfold collect_step, loads_arguments. rewrite Ht, Hl. cbn [bind].
  rewrite Hn, String.eqb_refl, Hu.
  cbn [bind iterate enumerate enumerate_from foldM].
  rewrite (expand_tool_use_ok _ _ _ _ _ _ H0). cbn [bind].
  rewrite (expand_tool_use_ok _ _ _ _ _ _ H1). reflexivity.
Qed.

Lemma splice_at_position {A} (before after replacement : list A) (x : A) :
  firstn (length before + 0) (before ++ x :: after) ++ replacement
    ++ skipn (length before + 0 + 1) (before ++ x :: after)
  = before ++ replacement ++ after.
Proof.
  rewrite Nat.add_0_r.
  rewrite firstn_app, firstn_all, Nat.sub_diag. simpl firstn.
  rewrite app_nil_r. f_equal. f_equal.
  replace (length before + 1) with (length (before ++ [x]))
    by (rewrite length_app; reflexivity).
  replace (before ++ x :: after) with ((before ++ [x]) ++ after)
    by (rewrite <- app_assoc; reflexivity).
  rewrite skipn_app, skipn_all, Nat.sub_diag. reflexivity.
Qed.

(** The repair where it works: a single hallucinated call packing two
    well-formed pseudo-calls, among calls with other names whose arguments
    parse, is replaced at its position by the two expanded calls. *)
Lemma repair_single_sentinel before after sentinel text args u0 u1 c0 c1 :
  let plain := fun tc =>
    fn_name (tc_function tc) <> SENTINEL
    /\ exists s v, fn_arguments (tc_function tc) = Some s
                   /\ json_loads s = Some v in
  Forall plain before -> Forall plain after ->
  fn_name (tc_function sentinel) = SENTINEL ->
  fn_arguments (tc_function sentinel) = Some text ->
  json_loads text = Some args ->
  subscript args "tool_uses" = Ok (VList [u0; u1]) ->
  expands_to sentinel 0 u0 c0 ->
  expands_to sentinel 1 u1 c1 ->
  _handle_invalid_parallel_tool_calls (Some (before ++ sentinel :: after))
  = Ok (Some (before ++ [c0; c1] ++ after)).
Proof.
  intros plain Hb Ha Hn Ht Hl Hu H0 H1.
  unfold _handle_invalid_parallel_tool_calls, collect_replacements, enumerate.
  rewrite enumerate_from_app, foldM_app.
  rewrite (collect_plain before 0 [] Hb).
  cbn [bind enumerate_from foldM].
  rewrite (collect_step_sentinel _ _ _ _ _ _ _ _ _ Hn Ht Hl Hu H0 H1).
  cbn [bind dd_append]. rewrite Nat.eqb_refl.
  rewrite (collect_plain after _ _ Ha).
  cbn [bind apply_replacements].
  rewrite Nat.add_0_l, splice_at_position. reflexivity.
Qed.

End RepairProperties.

(** A call whose arguments are no JSON text makes the repair raise. *)
Lemma repair_raises_on_invalid_arguments_witness :
  exists e,
    _handle_invalid_parallel_tool_calls
      (Some [plain_call "call_1" "get_weather" "not json"]) = Raise e.
Proof.
  apply (repair_raises_on_invalid_arguments
           [plain_call "call_1" "get_weather" "not json"]
           (plain_call "call_1" "get_weather" "not json") "not json").
  - simpl. left. reflexivity.
  - reflexivity.
  - vm_compute. reflexivity.
Defined.

(** C8 as stated fails: a sentinel-free list is not returned when the
    arguments of one of its calls do not parse. *)
Lemma repair_not_noop_on_invalid_arguments :
  fn_name (tc_function (plain_call "call_1" "get_weather" "not json"))
    <> SENTINEL
  /\ _handle_invalid_parallel_tool_calls
       (Some [plain_call "call_1" "get_weather" "not json"])
     = Raise JSONDecodeError
  /\ _handle_invalid_parallel_tool_calls
       (Some [plain_call "call_1" "get_weather" "not json"])
     <> Ok (Some [plain_call "call_1" "get_weather" "not json"]).
Proof.
  split; [| split].
  - discriminate.
  - vm_compute. reflexivity.
  - vm_compute. discriminate.
Qed.

Lemma repair_noop_without_sentinel_witness :
  collect_replacements
    [plain_call "call_1" "get_weather" (arguments_json (VDict []));
     plain_call "call_2" "get_time" (arguments_json (VInt 3))] = Ok []
  /\ _handle_invalid_parallel_tool_calls
       (Some [plain_call "call_1" "get_weather" (arguments_json (VDict []));
              plain_call "call_2" "get_time" (arguments_json (VInt 3))])
     = Ok (Some [plain_call "call_1" "get_weather" (arguments_json (VDict []));
                 plain_call "call_2" "get_time" (arguments_json (VInt 3))]).
Proof.
  apply (repair_noop_without_sentinel
           [plain_call "call_1" "get_weather" (arguments_json (VDict []));
            plain_call "call_2" "get_time" (arguments_json (VInt 3))]).
  repeat constructor; try discriminate.
  - exists (arguments_json (VDict [])), (VDict []). split; reflexivity.
  - exists (arguments_json (VInt 3)), (VInt 3). split; reflexivity.
Defined.

(** C3, a defect of the code: with two hallucinated calls in one list the
    second replacement is made one position too far to the right (the
    running shift grows by the length of each replacement instead of that
    length minus one). On the list [parallel a; x; parallel b; y] the
    repair returns [a_0; a_1; x; parallel b; b_0; b_1]: the second
    sentinel call is still there and the genuine call [y] is lost. *)
Theorem repair_second_sentinel_misplaced :
  _handle_invalid_parallel_tool_calls
    (Some [parallel_call "call_a" "f1" "f2";
           plain_call "call_x" "lookup" (arguments_json (VDict []));
           parallel_call "call_b" "g1" "g2";
           plain_call "call_y" "other" (arguments_json (VDict []))])
  = Ok (Some [expanded_call "call_a_0" "f1" [("city", VStr "Paris")];
              expanded_call "call_a_1" "f2" [("n", VInt 3)];
              plain_call "call_x" "lookup" (arguments_json (VDict []));
              parallel_call "call_b" "g1" "g2";
              expanded_call "call_b_0" "g1" [("city", VStr "Paris")];
              expanded_call "call_b_1" "g2" [("n", VInt 3)]]).
Proof. vm_compute. reflexivity. Qed.

(** The same list with the first hallucinated call alone is repaired as
    the specification says. *)
Example repair_one_sentinel_example :
  _handle_invalid_parallel_tool_calls
    (Some [parallel_call "call_a" "f1" "f2";
           plain_call "call_x" "lookup" (arguments_json (VDict []));
           plain_call "call_y" "other" (arguments_json (VDict []))])
  = Ok (Some [expanded_call "call_a_0" "f1" [("city", VStr "Paris")];
              expanded_call "call_a_1" "f2" [("n", VInt 3)];
              plain_call "call_x" "lookup" (arguments_json (VDict []));
              plain_call "call_y" "other" (arguments_json (VDict []))]).
Proof. vm_compute. reflexivity. Qed.

(** ** The response assembler *)

Section AssemblerProperties.
Context `{Runtime}.

Lemma check_error_passes response_object :
  has_error response_object = false -> check_error response_object = Ok tt.
Proof.
  unfold has_error, check_error. destruct response_object as [ro |]; [| reflexivity].
  destruct (dict_lookup "error" ro) as [e |]; [| reflexivity].
  destruct (is_None e); [reflexivity | discriminate].
Qed.

Lemma is_None_false v : v <> VNone -> is_None v = false.
Proof. destruct v; try reflexivity. congruence. Qed.

(** C1: a payload with a non-null [error] makes the call raise at the
    error-surface check, whatever the target object, the response type,
    the stream flag and the other arguments. The exception carries the
    error's [code] as status code when the error is a dict that has one
    and 422 otherwise; its message is the error's [message] printed by
    [str], the JSON text of that field when it is a dict, and
    "Error in response object" when there is none. *)
Theorem error_in_payload_raises ro model_response_object response_type stream
    start_time end_time hidden_params _response_headers
    convert_tool_call_to_json_mode error :
  dict_lookup "error" ro = Some error ->
  error <> VNone ->
  let r := convert_to_model_response_object (Some ro) model_response_object
             response_type stream start_time end_time hidden_params
             _response_headers convert_tool_call_to_json_mode in
  (exists e, r = Raise e)
  /\ match error with
     | VDict e =>
         match dict_lookup "message" e with
         | Some (VDict m) =>
             forall text, json_dumps (VDict m) = Some text ->
                          r = Raise (ResponseError (error_status error) text)
         | Some m => r = Raise (ResponseError (error_status error) (py_str m))
         | None =>
             r = Raise (ResponseError (error_status error)
                                      "Error in response object")
         end
     | _ => r = Raise (ResponseError (VInt 422) "Error in response object")
     end.
Proof.
  intros Herr Hnn r. subst r. unfold convert_to_model_response_object.
  unfold check_error. rewrite Herr, (is_None_false _ Hnn).
  destruct error as [| b | n | s | l | e | cls attrs];
    try congruence; try (split; [eexists |]; reflexivity).
  unfold error_status.
  destruct (dict_lookup "message" e) as [[| b | n | s | l | m | cls attrs] |];
    try (split; [eexists |]; reflexivity).
  unfold dumps. destruct (json_dumps (VDict m)) as [text |]; cbn [bind].
  - split; [eexists; reflexivity |]. intros t [= <-]. reflexivity.
  - split; [eexists; reflexivity |]. intros t [=].
Qed.

(** The example of section 8, for every target, response type and stream
    flag. *)
Example bad_request_raises model_response_object response_type stream
    start_time end_time hidden_params _response_headers
    convert_tool_call_to_json_mode :
  convert_to_model_response_object (Some bad_request_payload)
    model_response_object response_type stream start_time end_time
    hidden_params _response_headers convert_tool_call_to_json_mode
  = Raise (ResponseError (VInt 400) "bad request").
Proof. reflexivity. Qed.

(** C9, as amended: when the payload carries no non-null [error] and the
    target object is an instance of a class other than the one
    [response_type] names, no branch of the dispatch is taken and the
    call returns [None] without raising. *)
Theorem kind_mismatch_returns_None response_object r response_type stream
    start_time end_time hidden_params _response_headers
    convert_tool_call_to_json_mode :
  has_error response_object = false ->
  response_type <> kind_of r ->
  convert_to_model_response_object response_object (Some r) response_type
    stream start_time end_time hidden_params _response_headers
    convert_tool_call_to_json_mode
  = Ok ReturnedNone.
Proof.
  intros Hne Hk. unfold convert_to_model_response_object.
  rewrite (check_error_passes _ Hne). unfold dispatch.
  destruct r; cbn [kind_of] in Hk;
    repeat match goal with
    | |- context [String.eqb response_type ?k] =>
        destruct (String.eqb_spec response_type k); [congruence |]
    end;
    repeat match goal with
    | |- context [String.eqb response_type ?k] =>
        destruct (String.eqb response_type k)
    end; reflexivity.
Qed.

Lemma effective_tool_calls_dict message tool_calls :
  effective_tool_calls message = Ok tool_calls -> exists m, message = VDict m.
Proof.
  destruct message; try discriminate. eauto.
Qed.

(** C5: a choice assembled outside the JSON-mode branch gets as finish
    reason the payload's [finish_reason], or [finish_details] when the
    former is null, or "stop" when that is missing too, passed through
    [map_finish_reason] by the constructor of the choice. *)
Theorem finish_reason_of_choice convert_tool_call_to_json_mode idx c message
    tool_calls role :
  dict_lookup "message" c = Some message ->
  effective_tool_calls message = Ok tool_calls ->
  json_mode_message convert_tool_call_to_json_mode tool_calls = Ok None ->
  subscript message "role" = Ok role ->
  exists choice,
    convert_choice convert_tool_call_to_json_mode (idx, VDict c) = Ok choice
    /\ ch_finish_reason choice
       = map_finish_reason_value
           (if is_None (dict_get "finish_reason" c)
            then if truthy (dict_get "finish_details" c)
                 then dict_get "finish_details" c
                 else VStr "stop"
            else dict_get "finish_reason" c).
Proof.
  intros Hm Ht Hj Hr.
  destruct (effective_tool_calls_dict _ _ Ht) as [m ->].
  unfold convert_choice. cbn [subscript]. rewrite Hm. cbn [bind].
  rewrite Ht. cbn [bind]. rewrite Hj. cbn [bind].
  unfold normal_message. rewrite Hr. cbn [get bind].
  unfold finish_reason_fallback, py_or. cbn [get].
  destruct (is_None (dict_get "finish_reason" c)); cbn [bind];
    eexists; split; reflexivity.
Qed.

(** C6, as amended: for a choice assembled outside the JSON-mode branch,
    a [role] that is present and falsy becomes "assistant" and a truthy
    one is kept; a message without the [role] key makes the conversion of
    the choice raise [KeyError]. *)
Theorem role_of_choice convert_tool_call_to_json_mode idx c m tool_calls :
  dict_lookup "message" c = Some (VDict m) ->
  effective_tool_calls (VDict m) = Ok tool_calls ->
  json_mode_message convert_tool_call_to_json_mode tool_calls = Ok None ->
  match dict_lookup "role" m with
  | Some role =>
      exists choice,
        convert_choice convert_tool_call_to_json_mode (idx, VDict c)
        = Ok choice
        /\ msg_role (ch_message choice)
           = (if truthy role then role else VStr "assistant")
  | None =>
      convert_choice convert_tool_call_to_json_mode (idx, VDict c)
      = Raise (KeyError "role")
  end.
Proof.
  intros Hm Ht Hj.
  unfold convert_choice. cbn [subscript]. rewrite Hm. cbn [bind].
  rewrite Ht. cbn [bind]. rewrite Hj. cbn [bind].
  unfold normal_message. cbn [get subscript bind].
  destruct (dict_lookup "role" m) as [role |]; cbn [bind]; [| reflexivity].
  unfold finish_reason_fallback. cbn [get].
  destruct (is_None (dict_get "finish_reason" c)); cbn [bind];
    eexists; split; reflexivity.
Qed.

(** The model-prefix merge of section 8. *)
Example merge_model_prefix :
  merge_model [("model", VStr "gpt-4-0613")] (VStr "azure/gpt-4")
  = Ok (VStr "azure/gpt-4-0613")
  /\ merge_model [("model", VStr "gpt-4-0613")] VNone = Ok (VStr "gpt-4-0613")
  /\ merge_model [("model", VStr "gpt-4-0613")] (VStr "gpt-4")
     = Ok (VStr "gpt-4").
Proof. repeat split. Qed.

(** In the JSON-mode branch the message is built from the argument string
    alone, and its role is the default. *)
Lemma json_mode_role convert_tool_call_to_json_mode tool_calls message :
  json_mode_message convert_tool_call_to_json_mode tool_calls
  = Ok (Some message) ->
  msg_role message = VStr "assistant".
Proof.
  unfold json_mode_message.
  destruct convert_tool_call_to_json_mode as [[|] |]; try discriminate.
  destruct (is_single tool_calls) as [[|] | e]; cbn [bind]; try discriminate.
  destruct (first_arguments tool_calls) as [a | e]; cbn [bind];
    try discriminate.
  destruct (is_None a); [discriminate |]. intros [= <-]. reflexivity.
Qed.

End AssemblerProperties.

Lemma error_in_payload_raises_witness :
  (exists e,
     convert_to_model_response_object (Some bad_request_payload) None
       "embedding" true None None None None None = Raise e)
  /\ convert_to_model_response_object (Some bad_request_payload) None
       "embedding" true None None None None None
     = Raise (ResponseError (VInt 400) "bad request").
Proof.
  apply (error_in_payload_raises bad_request_payload None "embedding" true
           None None None None None
           (VDict [("code", VInt 400); ("message", VStr "bad request")])).
  - reflexivity.
  - discriminate.
Defined.

(** C9 as stated fails: with a mismatched target the call still raises
    when the payload carries an error. *)
Lemma kind_mismatch_with_error_raises :
  "completion" <> kind_of (REmbedding [])
  /\ convert_to_model_response_object (Some bad_request_payload)
       (Some (REmbedding [])) "completion" false None None None None None
     = Raise (ResponseError (VInt 400) "bad request").
Proof. split; [discriminate | reflexivity]. Qed.

Lemma kind_mismatch_returns_None_witness :
  convert_to_model_response_object (Some []) (Some (REmbedding []))
    "completion" false None None None None None
  = Ok ReturnedNone.
Proof.
  apply (kind_mismatch_returns_None (Some []) (REmbedding []) "completion").
  - reflexivity.
  - discriminate.
Defined.

Lemma finish_reason_of_choice_witness :
  exists choice,
    convert_choice None (0, VDict vision_choice) = Ok choice
    /\ ch_finish_reason choice = VStr "length".
Proof.
  apply (finish_reason_of_choice None 0 vision_choice
           (VDict [("role", VStr EmptyString); ("content", VStr "hi")])
           (RawToolCalls VNone) (VStr EmptyString));
    reflexivity.
Defined.

(** C6 as stated fails: a message without [role] is not given the role
    "assistant"; the assembly raises. *)
Lemma absent_role_raises :
  convert_to_model_response_object (Some no_role_payload)
    (Some (RModel PyRuntime.empty_response)) "completion" false
    None None None None None
  = Raise (InvalidResponseObject (KeyError "role")).
Proof. vm_compute. reflexivity. Qed.

Lemma role_of_choice_witness :
  exists choice,
    convert_choice None (0, VDict vision_choice) = Ok choice
    /\ msg_role (ch_message choice) = VStr "assistant".
Proof.
  apply (role_of_choice None 0 vision_choice
           [("role", VStr EmptyString); ("content", VStr "hi")]
           (RawToolCalls VNone));
    reflexivity.
Defined.

(** The round trip of section 8. *)
Example completion_round_trip :
  convert_to_model_response_object
    (Some [("choices",
            VList [VDict [("message", VDict [("role", VStr "assistant");
                                             ("content", VStr "hi")]);
                          ("finish_reason", VStr "stop")]]);
           ("usage", VDict [("prompt_tokens", VInt 1);
                            ("completion_tokens", VInt 1);
                            ("total_tokens", VInt 2)])])
    (Some (RModel PyRuntime.empty_response)) "completion" false
    None None None None None
  = Ok (Returned (RModel
      {| mr_choices :=
           NonStreaming
             [{| ch_finish_reason := VStr "stop"; ch_index := 0;
                 ch_message := {| msg_content := VStr "hi";
                                  msg_role := VStr "assistant";
                                  msg_function_call := VNone;
                                  msg_tool_calls := RawToolCalls VNone;
                                  msg_audio := VNone |};
                 ch_logprobs := VNone; ch_enhancements := VNone |}];
         mr_usage := Some {| completion_tokens := VInt 1;
                             prompt_tokens := VInt 1;
                             total_tokens := VInt 2 |};
         mr_created := VInt 1700000000;
         mr_id := VStr "chatcmpl-00000000";
         mr_system_fingerprint := VNone;
         mr_model := VNone;
         mr_response_ms := None;
         mr_hidden_params := Some [];
         mr_response_headers := None;
         mr_extra := [] |})).
Proof. vm_compute. reflexivity. Qed.

(** ** The streaming adapters *)

Section StreamingProperties.
Context `{Runtime}.

Lemma dict_set_same k v d : dict_lookup k d = Some v -> dict_set k v d = d.
Proof.
  induction d as [| [k' v'] d IH]; simpl; [discriminate |].
  destruct (k =? k')%string.
  - now intros [= ->].
  - intros Hl. now rewrite IH.
Qed.



(** *** Without raw tool calls the asynchronous adapter only reads *)

Lemma retype_without_raw message :
  has_raw_tool_calls message = false ->
  retype_tool_calls message = (message, Ok tt).
Proof. intros Hr. unfold retype_tool_calls. now rewrite Hr. Qed.

Lemma async_choice_without_raw idx choice :
  choice_has_raw_tool_calls choice = false ->
  async_choice idx choice = (choice, async_build idx choice).
Proof.
  intros Hr. destruct choice as [| b | n | s | l | c | cls attrs];
    try reflexivity.
  unfold async_choice, async_build. cbn [subscript].
  cbn [choice_has_raw_tool_calls] in Hr.
  destruct (dict_lookup "message" c) as [message |] eqn:Hm; [| reflexivity].
  destruct message as [| b | n | s | l | m | cls attrs]; try reflexivity.
  rewrite (retype_without_raw _ Hr), (dict_set_same _ _ _ Hm).
  cbn [subscript]. now rewrite Hm.
Qed.

Lemma async_choices_without_raw l idx :
  forallb (fun c => negb (choice_has_raw_tool_calls c)) l = true ->
  async_choices idx l
  = (l, mapM (fun it => async_build (fst it) (snd it)) (enumerate_from idx l)).
Proof.
  revert idx. induction l as [| choice l IH]; intros idx Hall; [reflexivity |].
  simpl in Hall. apply andb_true_iff in Hall as [Hc Hl].
  apply negb_true_iff in Hc.
  cbn [async_choices enumerate_from mapM fst snd].
  rewrite (async_choice_without_raw _ _ Hc).
  destruct (async_build idx choice) as [sc | e]; cbn [bind]; [| reflexivity].
  rewrite (IH (S idx) Hl).
  destruct (mapM _ (enumerate_from (S idx) l)); reflexivity.
Qed.

Lemma strings_without_raw {A} (f : A -> string) (l : list A) :
  forallb (fun c => negb (choice_has_raw_tool_calls c))
          (map (fun x => VStr (f x)) l) = true.
Proof. induction l; [reflexivity | assumption]. Qed.

Lemma async_without_raw ro :
  no_raw_tool_calls ro ->
  convert_to_streaming_response_async (Some ro)
  = (Some ro,
     choices <- subscript (VDict ro) "choices" ;;
     items <- iterate choices ;;
     choice_list <-
       mapM (fun it => async_build (fst it) (snd it)) (enumerate items) ;;
     copy_top_level ro (set_choices (Streaming choice_list)
                                    new_streaming_response)).
Proof.
  intros Hno. unfold convert_to_streaming_response_async, no_raw_tool_calls in *.
  cbn [subscript].
  destruct (dict_lookup "choices" ro) as [choices |] eqn:Hc; [| reflexivity].
  cbn [bind].
  destruct choices as [| b | n | s | l | d | cls attrs]; try reflexivity.
  - (* a string: its characters are no dicts *)
    cbn [iterate bind]. unfold enumerate.
    rewrite async_choices_without_raw; [reflexivity |].
    apply strings_without_raw.
  - (* a list *)
    cbn [iterate bind]. unfold enumerate.
    rewrite (async_choices_without_raw l 0 (Hno l eq_refl)).
    now rewrite (dict_set_same _ _ _ Hc).
  - (* a dict: its keys are no dicts *)
    cbn [iterate bind]. unfold enumerate.
    rewrite async_choices_without_raw; [reflexivity |].
    apply strings_without_raw.
Qed.

(** *** What the asynchronous adapter may write *)






(** *** Where the two adapters agree *)

Lemma async_build_sync idx choice :
  async_build idx choice
  = result_map without_enhancements (sync_choice (idx, choice)).
Proof.
  destruct choice as [| b | n | s | l | c | cls attrs]; try reflexivity.
  unfold async_build, sync_choice. cbn [subscript].
  destruct (dict_lookup "message" c) as [message |]; [| reflexivity].
  cbn [bind].
  destruct message as [| b | n | s | l | m | cls attrs]; try reflexivity.
  cbn [get subscript bind].
  destruct (dict_lookup "role" m) as [role |]; [| reflexivity].
  cbn [bind].
  destruct (is_None (dict_get "finish_reason" c)); reflexivity.
Qed.

Lemma async_builds_sync l :
  mapM (fun it => async_build (fst it) (snd it)) l
  = result_map (map without_enhancements) (mapM sync_choice l).
Proof.
  induction l as [| [idx choice] l IH]; [reflexivity |].
  cbn [mapM fst snd]. rewrite async_build_sync, IH.
  destruct (sync_choice (idx, choice)); cbn [result_map bind]; [| reflexivity].
  destruct (mapM sync_choice l); reflexivity.
Qed.

Lemma copy_top_level_choices ro l m :
  copy_top_level ro (set_choices (Streaming (map without_enhancements l)) m)
  = result_map drop_enhancements
      (copy_top_level ro (set_choices (Streaming l) m)).
Proof.
  unfold copy_top_level. cbn [set_choices mr_usage].
  match goal with
  | |- bind ?u _ = _ => destruct u; reflexivity
  end.
Qed.

(** X26: on a payload without raw tool calls the asynchronous adapter
    yields what the synchronous one yields, [enhancements] apart, and
    raises where it raises. *)
Lemma adapters_agree_without_raw_tool_calls ro :
  no_raw_tool_calls ro ->
  snd (convert_to_streaming_response_async (Some ro))
  = result_map drop_enhancements
      (snd (convert_to_streaming_response (Some ro))).
Proof.
  intros Hno. rewrite (async_without_raw ro Hno).
  unfold convert_to_streaming_response. cbn [snd].
  destruct (subscript (VDict ro) "choices") as [choices |]; [| reflexivity].
  cbn [bind].
  destruct (iterate choices) as [items |]; [| reflexivity].
  cbn [bind]. rewrite async_builds_sync.
  destruct (mapM sync_choice (enumerate items)) as [choice_list |];
    [| reflexivity].
  cbn [result_map bind]. apply copy_top_level_choices.
Qed.

End StreamingProperties.



(** C4, a defect of the code: the synchronous adapter lacks the
    re-indexing and typing of raw tool calls that the asynchronous one
    performs. On a cached completion whose choice carries two tool calls
    without [index], the asynchronous adapter yields typed tool calls
    numbered 0 and 1 and the synchronous one the raw records, unnumbered. *)
Theorem streaming_adapters_differ_on_tool_calls :
  delta_tool_calls
    (snd (convert_to_streaming_response (Some tool_call_payload)))
  = Some [VList [raw_tool_call "call_1" "get_weather";
                 raw_tool_call "call_2" "get_time"]]
  /\ delta_tool_calls
       (snd (convert_to_streaming_response_async (Some tool_call_payload)))
     = Some [VList [typed_tool_call "call_1" "get_weather" 0;
                    typed_tool_call "call_2" "get_time" 1]].
Proof. split; vm_compute; reflexivity. Qed.

(** * Further properties of the embedded code *)

(** ** Dictionaries: insertion and lookup *)

Lemma dict_lookup_set_eq k v d : dict_lookup k (dict_set k v d) = Some v.
Proof.
  induction d as [| [k' v'] d IH]; simpl.
  - now rewrite String.eqb_refl.
  - destruct (k =? k')%string eqn:E; simpl; rewrite E; [reflexivity | exact IH].
Qed.

Lemma dict_lookup_set_ne k k' v d :
  k' <> k -> dict_lookup k' (dict_set k v d) = dict_lookup k' d.
Proof.
  intros Hne. induction d as [| [k0 v0] d IH]; simpl.
  - apply String.eqb_neq in Hne. now rewrite Hne.
  - destruct (String.eqb_spec k k0) as [<- | Hk]; simpl.
    + apply String.eqb_neq in Hne. now rewrite Hne.
    + now rewrite IH.
Qed.

Lemma dict_lookup_app k d1 d2 :
  dict_lookup k (d1 ++ d2)
  = match dict_lookup k d1 with
    | Some v => Some v
    | None => dict_lookup k d2
    end.
Proof.
  induction d1 as [| [k' v'] d1 IH]; simpl; [reflexivity |].
  destruct (k =? k')%string; [reflexivity | exact IH].
Qed.

(** After [a.update(b)] a key has the last value [b] gives it, and the
    value it had in [a] when [b] does not have it. *)
Lemma dict_lookup_update k a b :
  dict_lookup k (dict_update a b)
  = match dict_lookup k (List.rev b) with
    | Some v => Some v
    | None => dict_lookup k a
    end.
Proof.
  unfold dict_update. revert a.
  induction b as [| [k0 v0] b IH]; intros a; simpl; [reflexivity |].
  rewrite IH, dict_lookup_app. simpl.
  destruct (dict_lookup k (List.rev b)); [reflexivity |].
  destruct (String.eqb_spec k k0) as [-> | Hne].
  - apply dict_lookup_set_eq.
  - now apply dict_lookup_set_ne.
Qed.

Lemma dict_lookup_None_notin k (d : dict) :
  ~ In k (map fst d) -> dict_lookup k d = None.
Proof.
  induction d as [| [k' v'] d IH]; simpl; [reflexivity |].
  intros Hn. destruct (String.eqb_spec k k') as [-> | _].
  - exfalso. apply Hn. now left.
  - apply IH. intros Hin. apply Hn. now right.
Qed.

Lemma dict_lookup_notin_None k (d : dict) :
  dict_lookup k d = None -> ~ In k (map fst d).
Proof.
  induction d as [| [k' v'] d IH]; simpl; [tauto |].
  destruct (String.eqb_spec k k') as [-> | Hne]; [discriminate |].
  intros Hl [He | Hin]; [congruence | now apply IH].
Qed.

(** With distinct keys the last binding is the first. *)
Lemma dict_lookup_rev k (d : dict) :
  NoDup (map fst d) -> dict_lookup k (List.rev d) = dict_lookup k d.
Proof.
  induction d as [| [k' v'] d IH]; intros Hnd; [reflexivity |].
  simpl in *. inversion Hnd as [| ? ? Hnotin Hnd']; subst.
  rewrite dict_lookup_app, (IH Hnd'). simpl.
  destruct (String.eqb_spec k k') as [-> | Hne].
  - now rewrite (dict_lookup_None_notin _ _ Hnotin).
  - now destruct (dict_lookup k d).
Qed.

Lemma dict_set_keys_NoDup k v (d : dict) :
  NoDup (map fst d) -> NoDup (map fst (dict_set k v d)).
Proof.
  induction d as [| [k' v'] d IH]; intros Hnd; simpl.
  - constructor; [tauto | constructor].
  - inversion Hnd as [| ? ? Hnotin Hnd']; subst.
    destruct (String.eqb_spec k k') as [-> | Hne]; simpl.
    + now constructor.
    + constructor; [| now apply IH].
      intros Hin. apply Hnotin.
      apply dict_lookup_None_notin in Hnotin.
      destruct (dict_lookup k' (dict_set k v d)) eqn:E.
      * rewrite dict_lookup_set_ne in E by congruence. congruence.
      * now apply dict_lookup_notin_None in E.
Qed.

(** ** The finish-reason mapper, further *)

(** X1: the mapper is idempotent: each of its four canonical outputs is
    mapped to itself, so mapping an already mapped reason changes
    nothing. *)
Theorem map_finish_reason_idempotent (s : string) :
  map_finish_reason (map_finish_reason s) = map_finish_reason s.
Proof.
  assert (H : map_finish_reason s = s
              \/ In (map_finish_reason s)
                    ["stop"; "length"; "content_filter"; "tool_calls"]).
  { unfold map_finish_reason.
    repeat match goal with
    | |- context [String.eqb s ?k] =>
        destruct (String.eqb_spec s k) as [-> | ?]; [right; cbn; tauto |]
    end.
    now left. }
  destruct H as [H | H]; [congruence |].
  cbn in H.
  repeat (destruct H as [<- | H]; [reflexivity |]). contradiction.
Qed.

(** ** Header extraction, further *)

Lemma get_openai_headers_spec (_response_headers : dict) (k : string) :
  dict_lookup k (_get_openai_headers _response_headers)
  = if existsb (String.eqb k) OPENAI_HEADERS
    then dict_lookup k _response_headers
    else None.
Proof.
  unfold _get_openai_headers, copy_if_present, OPENAI_HEADERS.
  destruct (dict_lookup "x-ratelimit-limit-requests" _response_headers) eqn:E1;
  destruct (dict_lookup "x-ratelimit-remaining-requests" _response_headers) eqn:E2;
  destruct (dict_lookup "x-ratelimit-limit-tokens" _response_headers) eqn:E3;
  destruct (dict_lookup "x-ratelimit-remaining-tokens" _response_headers) eqn:E4;
  cbn;
  repeat match goal with
  | |- context [String.eqb k ?c] =>
      destruct (String.eqb_spec k c) as [-> | ?]; cbn; [congruence |]
  end; reflexivity.
Qed.

(** X2: the extracted headers hold the four rate-limit keys that the raw
    headers have, each with its raw value, and no other key. *)
Theorem openai_headers_lookup (_response_headers : dict) (k : string) :
  dict_lookup k (_get_openai_headers _response_headers)
  = if existsb (String.eqb k) OPENAI_HEADERS
    then dict_lookup k _response_headers
    else None.
Proof. apply get_openai_headers_spec. Qed.

Lemma copy_if_present_NoDup k (src dst : dict) :
  NoDup (map fst dst) -> NoDup (map fst (copy_if_present k src dst)).
Proof.
  intros Hnd. unfold copy_if_present.
  destruct (dict_lookup k src); [now apply dict_set_keys_NoDup | exact Hnd].
Qed.

Lemma get_openai_headers_NoDup (_response_headers : dict) :
  NoDup (map fst (_get_openai_headers _response_headers)).
Proof.
  unfold _get_openai_headers. repeat apply copy_if_present_NoDup. constructor.
Qed.

Lemma llm_provider_headers_update (h a : dict) :
  fold_left
    (fun acc kv => dict_set ("llm_provider-" ++ fst kv)%string (snd kv) acc)
    h a
  = dict_update a (map provider_key h).
Proof.
  unfold dict_update. revert a.
  induction h as [| kv h IH]; intros a; simpl; [reflexivity | apply IH].
Qed.

Lemma dict_lookup_provider_key k (d : dict) :
  dict_lookup ("llm_provider-" ++ k)%string (map provider_key d)
  = dict_lookup k d.
Proof.
  induction d as [| [k' v'] d IH]; [reflexivity |].
  cbn [map dict_lookup provider_key fst snd].
  replace (("llm_provider-" ++ k) =? ("llm_provider-" ++ k'))%string
    with (k =? k')%string by reflexivity.
  now rewrite IH.
Qed.

Lemma dict_lookup_provider_key_other k (d : dict) :
  In k OPENAI_HEADERS -> dict_lookup k (map provider_key d) = None.
Proof.
  intros Hin. induction d as [| [k' v'] d IH]; [reflexivity |].
  cbn [map dict_lookup provider_key fst snd]. rewrite IH. cbn in Hin.
  repeat (destruct Hin as [<- | Hin]; [reflexivity |]). contradiction.
Qed.

(** X3: with response headers given, the hidden parameters gain
    [additional_headers] and keep their other entries; in it every raw
    header is found under its "llm_provider-" key and each of the four
    rate-limit headers also under its own name, unprefixed. *)
Theorem additional_headers_lookup (hidden_params _response_headers : dict) :
  NoDup (map fst _response_headers) ->
  exists hidden_params' merged,
    _set_headers_in_hidden_params (Some hidden_params) _response_headers
    = Some hidden_params'
    /\ dict_lookup "additional_headers" hidden_params' = Some (VDict merged)
    /\ (forall k, k <> "additional_headers" ->
                  dict_lookup k hidden_params' = dict_lookup k hidden_params)
    /\ (forall k, dict_lookup ("llm_provider-" ++ k)%string merged
                  = dict_lookup k _response_headers)
    /\ (forall k, In k OPENAI_HEADERS ->
                  dict_lookup k merged = dict_lookup k _response_headers).
Proof.
  intros Hnd. unfold _set_headers_in_hidden_params.
  eexists. eexists. split; [reflexivity |].
  split; [apply dict_lookup_set_eq |].
  split; [intros k Hk; now apply dict_lookup_set_ne |].
  unfold llm_provider_headers. rewrite llm_provider_headers_update.
  split; intros k.
  - rewrite dict_lookup_update,
      (dict_lookup_rev _ _ (get_openai_headers_NoDup _)),
      get_openai_headers_spec.
    replace (existsb (String.eqb ("llm_provider-" ++ k)%string) OPENAI_HEADERS)
      with false by reflexivity.
    rewrite dict_lookup_update, <- map_rev, dict_lookup_provider_key.
    rewrite (dict_lookup_rev _ _ Hnd).
    now destruct (dict_lookup k _response_headers).
  - intros Hin.
    rewrite dict_lookup_update,
      (dict_lookup_rev _ _ (get_openai_headers_NoDup _)),
      get_openai_headers_spec.
    replace (existsb (String.eqb k) OPENAI_HEADERS) with true.
    + destruct (dict_lookup k _response_headers); [reflexivity |].
      rewrite dict_lookup_update, <- map_rev.
      now rewrite (dict_lookup_provider_key_other _ _ Hin).
    + cbn in Hin.
      repeat (destruct Hin as [<- | Hin]; [reflexivity |]). contradiction.
Qed.

Lemma additional_headers_lookup_witness :
  exists hidden_params' merged,
    _set_headers_in_hidden_params (Some [("model_id", VStr "m1")])
      [("x-ratelimit-limit-tokens", VStr "10"); ("x-foo", VStr "bar")]
    = Some hidden_params'
    /\ dict_lookup "additional_headers" hidden_params' = Some (VDict merged)
    /\ (forall k, k <> "additional_headers" ->
                  dict_lookup k hidden_params'
                  = dict_lookup k [("model_id", VStr "m1")])
    /\ (forall k, dict_lookup ("llm_provider-" ++ k)%string merged
                  = dict_lookup k [("x-ratelimit-limit-tokens", VStr "10");
                                   ("x-foo", VStr "bar")])
    /\ (forall k, In k OPENAI_HEADERS ->
                  dict_lookup k merged
                  = dict_lookup k [("x-ratelimit-limit-tokens", VStr "10");
                                   ("x-foo", VStr "bar")]).
Proof.
  apply (additional_headers_lookup [("model_id", VStr "m1")]
           [("x-ratelimit-limit-tokens", VStr "10"); ("x-foo", VStr "bar")]).
  repeat constructor; simpl; intuition discriminate.
Defined.

(** ** Tool-call repair, further *)

Section RepairFurther.
Context `{Runtime}.

Lemma dd_append_new {A} (i : nat) (x : A) (r : list (nat * list A)) :
  ~ In i (map fst r) -> dd_append i x r = r ++ [(i, [x])].
Proof.
  induction r as [| [j l] r IH]; simpl; intros Hn; [reflexivity |].
  destruct (Nat.eqb_spec i j) as [-> | _]; [tauto |].
  rewrite IH; [reflexivity | tauto].
Qed.

Lemma dd_append_last {A} (i : nat) (x : A) (r : list (nat * list A)) acc :
  ~ In i (map fst r) ->
  dd_append i x (r ++ [(i, acc)]) = r ++ [(i, acc ++ [x])].
Proof.
  induction r as [| [j l] r IH]; simpl; intros Hn.
  - now rewrite Nat.eqb_refl.
  - destruct (Nat.eqb_spec i j) as [-> | _]; [tauto |].
    rewrite IH; [reflexivity | tauto].
Qed.

Lemma expand_fold i tool_call r items :
  ~ In i (map fst r) ->
  forall k fixed acc,
    expansion tool_call k items fixed ->
    foldM (expand_tool_use i tool_call) (enumerate_from k items)
          (r ++ [(i, acc)])
    = Ok (r ++ [(i, acc ++ fixed)]).
Proof.
  intros Hn. induction items as [| u items IH]; intros k fixed acc Hx;
    inversion Hx as [| it c its cs Hc Hcs]; subst; cbn [enumerate_from foldM].
  - now rewrite app_nil_r.
  - rewrite (expand_tool_use_ok _ _ _ _ _ _ Hc). cbn [bind].
    rewrite (dd_append_last _ _ _ _ Hn), (IH _ _ _ Hcs).
    now rewrite <- app_assoc.
Qed.

(** The outer loop's body on a hallucinated call at position [i] not yet
    in the table: nothing is recorded for an empty list of pseudo-calls. *)
Lemma collect_step_packs r i tool_call items fixed :
  ~ In i (map fst r) ->
  packs tool_call items fixed ->
  collect_step r (i, tool_call)
  = Ok (match items with [] => r | _ => r ++ [(i, fixed)] end).
Proof.
  intros Hn (Hname & text & args & Ht & Hl & Hu & Hx).
  unfold collect_step, loads_arguments. rewrite Ht, Hl. cbn [bind].
  rewrite Hname, String.eqb_refl, Hu. cbn [bind iterate]. unfold enumerate.
  destruct items as [| u items];
    inversion Hx as [| it c its cs Hc Hcs]; subst;
    cbn [enumerate_from foldM]; [reflexivity |].
  rewrite (expand_tool_use_ok _ _ _ _ _ _ Hc). cbn [bind].
  rewrite (dd_append_new _ _ _ Hn).
  now rewrite (expand_fold _ _ _ _ Hn _ _ _ Hcs).
Qed.

Lemma firstn_length_app {A} (a b : list A) : firstn (length a) (a ++ b) = a.
Proof. induction a; simpl; [now destruct b | now f_equal]. Qed.

Lemma skipn_length_app {A} (a b : list A) (n : nat) :
  skipn (length a + n) (a ++ b) = skipn n b.
Proof. induction a; simpl; [reflexivity | assumption]. Qed.

(** X4: a single hallucinated parallel call that packs at least one
    well-formed pseudo-call, among calls with other names whose arguments
    parse, is replaced at its position by the expanded calls, in order;
    the calls before and after it are kept as they are. *)
Theorem repair_replaces_single_sentinel before after sentinel items fixed :
  Forall parsable_plain before ->
  Forall parsable_plain after ->
  packs sentinel items fixed ->
  items <> [] ->
  _handle_invalid_parallel_tool_calls (Some (before ++ sentinel :: after))
  = Ok (Some (before ++ fixed ++ after)).
Proof.
  intros Hb Ha Hp Hne.
  unfold _handle_invalid_parallel_tool_calls, collect_replacements, enumerate.
  rewrite enumerate_from_app, foldM_app.
  rewrite (collect_plain before 0 [] Hb).
  cbn [bind enumerate_from foldM].
  rewrite (collect_step_packs [] _ _ _ _ (fun f => f) Hp).
  destruct items as [| u items]; [congruence |].
  rewrite app_nil_l. cbn [bind]. rewrite (collect_plain after _ _ Ha).
  cbn [bind apply_replacements].
  rewrite Nat.add_0_l, splice_at_position. reflexivity.
Qed.

(** X5: a hallucinated parallel call whose list of pseudo-calls is empty
    is not removed: a list whose calls all parse and are either plain or
    such empty parallel calls is returned unchanged, sentinel names
    included. *)
Theorem repair_keeps_empty_sentinel tool_calls :
  Forall (fun tc => parsable_plain tc \/ packs tc [] []) tool_calls ->
  _handle_invalid_parallel_tool_calls (Some tool_calls)
  = Ok (Some tool_calls).
Proof.
  intros Hall.
  assert (Hc : forall k r,
             foldM collect_step (enumerate_from k tool_calls) r = Ok r).
  { induction Hall as [| tc tcs Htc _ IH]; intros k r; [reflexivity |].
    cbn [enumerate_from foldM]. destruct Htc as [Hp | Hp].
    - pose proof (collect_plain [tc] k r (Forall_cons _ Hp (Forall_nil _)))
        as Hs.
      cbn [enumerate_from foldM] in Hs.
      destruct (collect_step r (k, tc)); [| discriminate].
      cbn [bind] in *. injection Hs as ->. apply IH.
    - destruct Hp as (Hname & text & args & Ht & Hl & Hu & _).
      unfold collect_step at 1, loads_arguments. rewrite Ht, Hl.
      cbn [bind]. rewrite Hname, String.eqb_refl, Hu.
      cbn [bind iterate enumerate enumerate_from foldM]. apply IH. }
  unfold _handle_invalid_parallel_tool_calls, collect_replacements, enumerate.
  now rewrite Hc.
Qed.

(** X6: with two hallucinated parallel calls in one list the first is
    replaced in place, but the second replacement is spliced one position
    too far: the second parallel call stays in the list, its expansion
    follows it, and the call that came right after it is dropped. *)
Theorem repair_two_sentinels before mid after s1 items1 fixed1 s2 items2
    fixed2 :
  Forall parsable_plain before ->
  Forall parsable_plain mid ->
  Forall parsable_plain after ->
  packs s1 items1 fixed1 -> items1 <> [] ->
  packs s2 items2 fixed2 -> items2 <> [] ->
  _handle_invalid_parallel_tool_calls
    (Some (before ++ s1 :: mid ++ s2 :: after))
  = Ok (Some (before ++ fixed1 ++ mid ++ s2 :: fixed2 ++ tl after)).
Proof.
  intros Hb Hm Ha Hp1 Hn1 Hp2 Hn2.
  unfold _handle_invalid_parallel_tool_calls, collect_replacements, enumerate.
  rewrite enumerate_from_app, foldM_app.
  rewrite (collect_plain before 0 [] Hb).
  cbn [bind enumerate_from foldM].
  rewrite (collect_step_packs [] _ _ _ _ (fun f => f) Hp1).
  destruct items1 as [| u1 items1]; [congruence |].
  rewrite app_nil_l. cbn [bind].
  rewrite enumerate_from_app, foldM_app.
  rewrite (collect_plain mid _ _ Hm).
  cbn [bind enumerate_from foldM].
  rewrite (collect_step_packs [(0 + length before, fixed1)] _ s2 items2 fixed2);
    [| cbn; lia | exact Hp2].
  destruct items2 as [| u2 items2]; [congruence |].
  cbn [bind]. rewrite (collect_plain after _ _ Ha).
  cbn [bind].
  match goal with
  | |- context [apply_replacements ([?p] ++ [?q])] =>
      change ([p] ++ [q]) with [p; q]
  end.
  cbn [apply_replacements].
  rewrite !Nat.add_0_l, splice_at_position.
  assert (HL : before ++ fixed1 ++ mid ++ s2 :: after
               = (before ++ fixed1 ++ mid ++ [s2]) ++ after)
    by (rewrite <- !app_assoc; reflexivity).
  assert (HP : S (length before) + length mid + length fixed1
               = length (before ++ fixed1 ++ mid ++ [s2]))
    by (rewrite !length_app; simpl; lia).
  rewrite HL, HP, firstn_length_app, skipn_length_app.
  rewrite <- !app_assoc. destruct after; reflexivity.
Qed.

Lemma substring_all (s : string) : substring 0 (String.length s) s = s.
Proof. induction s; simpl; [reflexivity | now f_equal]. Qed.

(** X7: a recipient name "functions.f" becomes the function name "f",
    for every [f]: the prefix is taken off once, and a name that does not
    start with it is kept whole. *)
Theorem strip_functions_prefix (f : string) :
  strip_functions (VStr ("functions." ++ f)%string) = Ok f
  /\ (prefix "functions." f = false -> strip_functions (VStr f) = Ok f).
Proof.
  split.
  - cbn.
    replace (prefix EmptyString f) with true by (destruct f; reflexivity).
    now rewrite Nat.sub_0_r, substring_all.
  - intros Hp. unfold strip_functions. now rewrite Hp.
Qed.

End RepairFurther.

(** Closing the side conditions of the repair theorems on concrete calls. *)
Ltac concrete_plain :=
  split; [discriminate | eexists; eexists; split; reflexivity].

Ltac concrete_expands :=
  eexists; eexists; eexists; eexists;
  repeat (split; [reflexivity |]); reflexivity.

Ltac concrete_packs :=
  split; [reflexivity |];
  eexists; eexists;
  split; [reflexivity |];
  split; [vm_compute; reflexivity |];
  split; [reflexivity |];
  repeat (constructor; [concrete_expands |]); constructor.

Lemma repair_replaces_single_sentinel_witness :
  _handle_invalid_parallel_tool_calls
    (Some ([plain_call "call_x" "lookup" (arguments_json (VDict []))]
           ++ parallel_call "call_a" "f1" "f2"
           :: [plain_call "call_y" "other" (arguments_json (VDict []))]))
  = Ok (Some ([plain_call "call_x" "lookup" (arguments_json (VDict []))]
              ++ [expanded_call "call_a_0" "f1" [("city", VStr "Paris")];
                  expanded_call "call_a_1" "f2" [("n", VInt 3)]]
              ++ [plain_call "call_y" "other" (arguments_json (VDict []))])).
Proof.
  apply (repair_replaces_single_sentinel
           [plain_call "call_x" "lookup" (arguments_json (VDict []))]
           [plain_call "call_y" "other" (arguments_json (VDict []))]
           (parallel_call "call_a" "f1" "f2") (parallel_uses "f1" "f2")).
  - constructor; [concrete_plain | constructor].
  - constructor; [concrete_plain | constructor].
  - concrete_packs.
  - discriminate.
Defined.

Lemma repair_keeps_empty_sentinel_witness :
  _handle_invalid_parallel_tool_calls
    (Some [plain_call "call_x" "lookup" (arguments_json (VDict []));
           empty_parallel_call "call_e"])
  = Ok (Some [plain_call "call_x" "lookup" (arguments_json (VDict []));
              empty_parallel_call "call_e"]).
Proof.
  apply (repair_keeps_empty_sentinel
           [plain_call "call_x" "lookup" (arguments_json (VDict []));
            empty_parallel_call "call_e"]).
  constructor; [left; concrete_plain |].
  constructor; [right; concrete_packs | constructor].
Defined.

Lemma repair_two_sentinels_witness :
  _handle_invalid_parallel_tool_calls
    (Some ([] ++ parallel_call "call_a" "f1" "f2"
           :: [plain_call "call_x" "lookup" (arguments_json (VDict []))]
           ++ parallel_call "call_b" "g1" "g2"
           :: [plain_call "call_y" "other" (arguments_json (VDict []))]))
  = Ok (Some ([] ++ [expanded_call "call_a_0" "f1" [("city", VStr "Paris")];
                     expanded_call "call_a_1" "f2" [("n", VInt 3)]]
              ++ [plain_call "call_x" "lookup" (arguments_json (VDict []))]
              ++ parallel_call "call_b" "g1" "g2"
              :: [expanded_call "call_b_0" "g1" [("city", VStr "Paris")];
                  expanded_call "call_b_1" "g2" [("n", VInt 3)]]
              ++ tl [plain_call "call_y" "other" (arguments_json (VDict []))])).
Proof.
  apply (repair_two_sentinels []
           [plain_call "call_x" "lookup" (arguments_json (VDict []))]
           [plain_call "call_y" "other" (arguments_json (VDict []))]
           (parallel_call "call_a" "f1" "f2") (parallel_uses "f1" "f2")
           [expanded_call "call_a_0" "f1" [("city", VStr "Paris")];
            expanded_call "call_a_1" "f2" [("n", VInt 3)]]
           (parallel_call "call_b" "g1" "g2") (parallel_uses "g1" "g2")).
  - constructor.
  - constructor; [concrete_plain | constructor].
  - constructor; [concrete_plain | constructor].
  - concrete_packs.
  - discriminate.
  - concrete_packs.
  - discriminate.
Defined.

(** ** The streaming adapters, further *)

(** Inversion of a successful chain of binds. *)
Ltac bind_inv H :=
  repeat match type of H with
  | bind ?m _ = Ok _ =>
      let E := fresh "E" in
      destruct m eqn:E; cbn [bind] in H; [| discriminate H]
  end.

Section StreamingFurther.
Context `{Runtime}.

Lemma mapM_Forall2 {A B} (f : A -> result B) (l : list A) (ys : list B) :
  mapM f l = Ok ys -> Forall2 (fun x y => f x = Ok y) l ys.
Proof.
  revert ys. induction l as [| x l IH]; intros ys Hm; cbn [mapM] in Hm.
  - injection Hm as <-. constructor.
  - bind_inv Hm. injection Hm as <-. constructor; [assumption | now apply IH].
Qed.

Lemma mapM_indices {A B} (f : nat * A -> result B) (index : B -> nat)
    (l : list A) :
  (forall it y, f it = Ok y -> index y = fst it) ->
  forall k ys,
    mapM f (enumerate_from k l) = Ok ys ->
    map index ys = seq k (length l).
Proof.
  intros Hf. induction l as [| x l IH]; intros k ys Hm;
    cbn [enumerate_from mapM] in Hm.
  - injection Hm as <-. reflexivity.
  - bind_inv Hm. injection Hm as <-. cbn [map length seq].
    f_equal; [exact (Hf _ _ E) | now apply IH].
Qed.

Lemma sync_choice_streams_as idx choice sc :
  sync_choice (idx, choice) = Ok sc ->
  sc_index sc = idx /\ streams_as choice sc
  /\ sc_enhancements sc = match choice with
                          | VDict c => dict_get "enhancements" c
                          | _ => VNone
                          end.
Proof.
  intros Hs. unfold sync_choice in Hs.
  destruct choice as [| b | n | s | l | c | cls attrs]; try discriminate Hs.
  cbn [subscript] in Hs.
  destruct (dict_lookup "message" c) as [message |] eqn:Hm;
    [| discriminate Hs].
  cbn [bind] in Hs.
  destruct message as [| b | n | s | l | m | cls attrs]; try discriminate Hs.
  cbn [get subscript bind] in Hs.
  destruct (dict_lookup "role" m) as [role |] eqn:Hr; [| discriminate Hs].
  cbn [bind] in Hs.
  destruct (is_None (dict_get "finish_reason" c)) eqn:Hf;
    cbn [get bind] in Hs; inversion Hs; subst; clear Hs;
    (split; [reflexivity |]); (split; [| reflexivity]);
    exists c, m, role; cbn; rewrite Hf; repeat split; assumption.
Qed.

Lemma async_build_streams_as idx choice sc :
  async_build idx choice = Ok sc -> sc_index sc = idx /\ streams_as choice sc.
Proof.
  rewrite async_build_sync.
  destruct (sync_choice (idx, choice)) as [sc' |] eqn:Hs; [| discriminate].
  intros [= <-]. destruct (sync_choice_streams_as _ _ _ Hs) as (Hi & Hx & _).
  split; [exact Hi |].
  destruct Hx as (c & m & role & Hx). exists c, m, role. exact Hx.
Qed.

Lemma copy_top_level_ok ro m r :
  copy_top_level ro m = Ok r ->
  mr_choices r = mr_choices m
  /\ mr_id r = match dict_lookup "id" ro with Some v => v | None => mr_id m end
  /\ mr_created r = match dict_lookup "created" ro with
                    | Some v => v | None => mr_created m end
  /\ mr_system_fingerprint r
     = match dict_lookup "system_fingerprint" ro with
       | Some v => v | None => mr_system_fingerprint m end
  /\ mr_model r = match dict_lookup "model" ro with
                  | Some v => v | None => mr_model m end
  /\ match dict_lookup "usage" ro with
     | Some (VDict u) => mr_usage r = Some (usage_or_zero u)
     | Some VNone | None => mr_usage r = mr_usage m
     | Some _ => False
     end.
Proof.
  unfold copy_top_level, usage_or_zero. intros Hc.
  destruct (dict_lookup "usage" ro) as [[| b | n | s | l | u | cls attrs] |];
    cbn in Hc; try discriminate Hc;
    try (destruct (dict_lookup "completion_tokens" u),
                  (dict_lookup "prompt_tokens" u),
                  (dict_lookup "total_tokens" u); cbn in Hc);
    injection Hc as <-; cbn; repeat split; reflexivity.
Qed.

(** X8: when the synchronous adapter yields a response, every payload
    choice is a dict whose message is a dict with a [role] key, and the
    response has one streaming choice per payload choice, in order: it
    carries the message's role, content, function call and tool calls as
    they are (no default role), and as finish reason the raw
    [finish_reason], or the raw [finish_details] when that is null, with
    no mapping and no "stop" default. *)
Theorem sync_adapter_choices ro r :
  snd (convert_to_streaming_response (Some ro)) = Ok r ->
  exists choices items scs,
    dict_lookup "choices" ro = Some choices
    /\ iterate choices = Ok items
    /\ mr_choices r = Streaming scs
    /\ map sc_index scs = seq 0 (length items)
    /\ Forall2 streams_as items scs.
Proof.
  unfold convert_to_streaming_response. cbn [snd subscript]. intros Hr.
  destruct (dict_lookup "choices" ro) as [choices |]; [| discriminate Hr].
  cbn [bind] in Hr. bind_inv Hr.
  destruct (copy_top_level_ok _ _ _ Hr) as (Hc & _).
  exists choices, a, a0. repeat split; try assumption.
  - unfold enumerate in E0.
    apply (mapM_indices sync_choice sc_index a) with (k := 0) (ys := a0);
      [| exact E0].
    intros [idx choice] y Hy. now destruct (sync_choice_streams_as _ _ _ Hy).
  - apply mapM_Forall2 in E0. unfold enumerate in E0.
    clear - E0. revert E0. generalize 0 as k. revert a0.
    induction a as [| choice items IH]; intros scs k HF;
      inversion HF as [| it sc its scs' Hs HF']; subst; constructor.
    + now destruct (sync_choice_streams_as _ _ _ Hs) as (_ & Hx & _).
    + now apply (IH _ (S k)).
Qed.

(** X9: both streaming adapters copy [id], [created],
    [system_fingerprint] and [model] from the payload as they are when
    the key is present (also when the value is null) and keep the fresh
    response's value otherwise; a [usage] dict gives the three token
    counts, 0 for a missing one, and a null or missing [usage] leaves the
    fresh response's usage. *)
Theorem streaming_top_level_copies ro r :
  (snd (convert_to_streaming_response (Some ro)) = Ok r ->
   top_level_copied ro r)
  /\ (snd (convert_to_streaming_response_async (Some ro)) = Ok r ->
      top_level_copied ro r).
Proof.
  split.
  - unfold convert_to_streaming_response. cbn [snd subscript]. intros Hr.
    destruct (dict_lookup "choices" ro) as [choices |]; [| discriminate Hr].
    cbn [bind] in Hr. bind_inv Hr.
    destruct (copy_top_level_ok _ _ _ Hr) as (_ & Hi & Hc & Hf & Hm & Hu).
    unfold top_level_copied. repeat split; assumption.
  - unfold convert_to_streaming_response_async. cbn [subscript]. intros Hr.
    destruct (dict_lookup "choices" ro) as [choices |] eqn:Hch;
      [| discriminate Hr].
    destruct (iterate choices) as [items |]; [| discriminate Hr].
    destruct (async_choices 0 items) as [items' res]. cbn [snd] in Hr.
    bind_inv Hr.
    destruct (copy_top_level_ok _ _ _ Hr) as (_ & Hi & Hc & Hf & Hm & Hu).
    assert (Hk : forall k, k <> "choices" ->
                 dict_lookup k
                   match choices with
                   | VList _ => dict_set "choices" (VList items') ro
                   | _ => ro
                   end = dict_lookup k ro).
    { intros k Hk. destruct choices; try reflexivity.
      now apply dict_lookup_set_ne. }
    rewrite Hk in Hi, Hc, Hf, Hm, Hu by discriminate.
    unfold top_level_copied. repeat split; assumption.
Qed.

(** *** The asynchronous adapter's re-indexing *)

Lemma index_tool_calls_ok ts :
  forall k ts' typed,
    index_tool_calls k ts = (ts', Ok typed) ->
    ts' = map (fun it => with_index (fst it) (snd it)) (enumerate_from k ts)
    /\ Forall2 (fun t obj =>
                  exists d, t = VDict d /\ dict_mem "index" d = true
                            /\ delta_tool_call_of_dict d = Ok obj) ts' typed.
Proof.
  induction ts as [| t ts IH]; intros k ts' typed Hi; cbn [index_tool_calls] in Hi.
  - injection Hi as <- <-. split; [reflexivity | constructor].
  - destruct t as [| b | n | s | l | d | cls attrs]; try discriminate Hi.
    cbv zeta in Hi.
    match type of Hi with
    | context [delta_tool_call_of_dict ?x] =>
        destruct (delta_tool_call_of_dict x) as [obj |] eqn:Ed;
          [| discriminate Hi]
    end.
    destruct (index_tool_calls (S k) ts) as [rest' [pydantic | e]] eqn:Er;
      [| discriminate Hi].
    injection Hi as <- <-. destruct (IH _ _ _ Er) as [-> HF].
    split; [reflexivity |]. constructor; [| exact HF].
    eexists. split; [reflexivity |]. split; [| exact Ed].
    destruct (dict_mem "index" d) eqn:Em; [exact Em |].
    unfold dict_mem. now rewrite dict_lookup_set_eq.
Qed.

(** X10: when the asynchronous adapter's loop over the raw tool calls of
    a message succeeds, every record was a dict; the list it leaves holds
    each record with its own [index] when it had one and with its
    position in the list otherwise, and each typed tool call was built
    from such a record, which has an [index]. *)
Theorem async_tool_calls_indexed ts ts' typed :
  index_tool_calls 0 ts = (ts', Ok typed) ->
  forallb is_dict ts = true
  /\ ts' = map (fun it => with_index (fst it) (snd it)) (enumerate ts)
  /\ Forall2 (fun t obj =>
                exists d, t = VDict d /\ dict_mem "index" d = true
                          /\ delta_tool_call_of_dict d = Ok obj) ts' typed.
Proof.
  intros Hi. split; [| now apply index_tool_calls_ok].
  revert ts' typed Hi. generalize 0 as k.
  induction ts as [| t ts IH]; intros k ts' typed Hi; [reflexivity |].
  cbn [index_tool_calls] in Hi.
  destruct t as [| b | n | s | l | d | cls attrs]; try discriminate Hi.
  cbv zeta in Hi.
  match type of Hi with
  | context [delta_tool_call_of_dict ?x] =>
      destruct (delta_tool_call_of_dict x); [| discriminate Hi]
  end.
  destruct (index_tool_calls (S k) ts) as [rest' [pydantic | e]] eqn:Er;
    [| discriminate Hi].
  cbn. now apply (IH _ _ _ Er).
Qed.

(** *** Running the asynchronous adapter again *)

Section TypedObjects.
(** A typed tool call is an object of its class, not a dict. *)
Hypothesis typed_is_no_dict :
  forall d obj, delta_tool_call_of_dict d = Ok obj -> is_dict obj = false.

Lemma retype_ok_without_raw message message' :
  retype_tool_calls message = (message', Ok tt) ->
  has_raw_tool_calls message' = false.
Proof.
  unfold retype_tool_calls.
  destruct (has_raw_tool_calls message) eqn:Hr; [| now intros [= <-]].
  unfold has_raw_tool_calls in Hr.
  destruct (dict_get "tool_calls" message) as [| b | n | s | ts | d | cls attrs];
    try discriminate Hr.
  destruct (index_tool_calls 0 ts) as [ts' [pydantic | e]] eqn:Ei;
    [| discriminate].
  intros [= <-]. unfold has_raw_tool_calls, dict_get.
  rewrite dict_lookup_set_eq.
  destruct (index_tool_calls_ok _ _ _ _ Ei) as [_ HF].
  destruct HF as [| t obj ts'' objs (d & _ & _ & Hd) _]; [reflexivity |].
  apply typed_is_no_dict in Hd. now destruct obj.
Qed.

Lemma async_choice_ok idx choice choice' sc :
  async_choice idx choice = (choice', Ok sc) ->
  choice_has_raw_tool_calls choice' = false
  /\ async_build idx choice' = Ok sc.
Proof.
  unfold async_choice.
  destruct choice as [| b | n | s | l | c | cls attrs]; try discriminate.
  destruct (dict_lookup "message" c) as [message |]; [| discriminate].
  destruct message as [| b | n | s | l | m | cls attrs]; try discriminate.
  destruct (retype_tool_calls m) as [m' [[] | e]] eqn:Er; [| discriminate].
  intros [= <- Hb]. split; [| exact Hb].
  cbn [choice_has_raw_tool_calls]. rewrite dict_lookup_set_eq.
  now apply retype_ok_without_raw with m.
Qed.

Lemma async_choices_ok l :
  forall idx l' scs,
    async_choices idx l = (l', Ok scs) ->
    forallb (fun c => negb (choice_has_raw_tool_calls c)) l' = true
    /\ mapM (fun it => async_build (fst it) (snd it)) (enumerate_from idx l')
       = Ok scs.
Proof.
  induction l as [| choice l IH]; intros idx l' scs Ha;
    cbn [async_choices] in Ha.
  - injection Ha as <- <-. split; reflexivity.
  - destruct (async_choice idx choice) as [choice' [sc | e]] eqn:Ec;
      [| discriminate Ha].
    destruct (async_choices (S idx) l) as [rest' [scs' | e]] eqn:Er;
      [| discriminate Ha].
    injection Ha as <- <-.
    destruct (async_choice_ok _ _ _ _ Ec) as [Hn Hb].
    destruct (IH _ _ _ Er) as [Hl Hm].
    split.
    + cbn. now rewrite Hn, Hl.
    + cbn [enumerate_from mapM fst snd]. now rewrite Hb, Hm.
Qed.

(** X11: the asynchronous adapter is idempotent on the payload it
    leaves: after a run that yielded a response, a second run on the
    rewritten payload changes nothing more and yields the same
    response. *)
Theorem async_adapter_second_run ro ro' r :
  convert_to_streaming_response_async (Some ro) = (Some ro', Ok r) ->
  convert_to_streaming_response_async (Some ro') = (Some ro', Ok r).
Proof.
  intros Hrun. pose proof Hrun as Hrun'.
  unfold convert_to_streaming_response_async in Hrun. cbn [subscript] in Hrun.
  destruct (dict_lookup "choices" ro) as [choices |] eqn:Hc;
    [| discriminate Hrun].
  destruct (iterate choices) as [items |] eqn:Hi; [| discriminate Hrun].
  destruct (async_choices 0 items) as [items' [scs | e]] eqn:Ha;
    [| discriminate Hrun].
  cbn [bind] in Hrun. injection Hrun as Hro Hr.
  destruct (async_choices_ok _ _ _ _ Ha) as [Hn Hm].
  assert (Hs : dict_lookup "choices" ro'
               = Some (match choices with
                       | VList _ => VList items'
                       | v => v
                       end)).
  { subst ro'. destruct choices; try exact Hc. apply dict_lookup_set_eq. }
  assert (Hit : iterate (match choices with
                         | VList _ => VList items'
                         | v => v
                         end) = Ok items').
  { destruct choices as [| b | n | s | l | d | cls attrs];
      try discriminate Hi; cbn [iterate] in *; try reflexivity;
      injection Hi as <-.
    - rewrite async_choices_without_raw in Ha by apply strings_without_raw.
      now injection Ha as <- _.
    - rewrite async_choices_without_raw in Ha by apply strings_without_raw.
      now injection Ha as <- _. }
  rewrite async_without_raw.
  - cbn [subscript]. rewrite Hs. cbn [bind]. rewrite Hit. cbn [bind].
    unfold enumerate. rewrite Hm. cbn [bind]. rewrite <- Hro at 2.
    now rewrite Hr.
  - intros l Hl. rewrite Hs in Hl.
    destruct choices; try discriminate Hl. now injection Hl as <-.
Qed.

End TypedObjects.

End StreamingFurther.

Lemma sync_adapter_choices_witness :
  exists choices items scs,
    dict_lookup "choices" tool_call_payload = Some choices
    /\ iterate choices = Ok items
    /\ mr_choices tool_call_response = Streaming scs
    /\ map sc_index scs = seq 0 (length items)
    /\ Forall2 streams_as items scs.
Proof.
  apply (sync_adapter_choices tool_call_payload tool_call_response).
  vm_compute. reflexivity.
Defined.

Lemma streaming_top_level_copies_witness :
  top_level_copied tool_call_payload tool_call_response
  /\ top_level_copied tool_call_payload tool_call_response_async.
Proof.
  split.
  - apply (proj1 (streaming_top_level_copies tool_call_payload
                    tool_call_response)).
    vm_compute. reflexivity.
  - apply (proj2 (streaming_top_level_copies tool_call_payload
                    tool_call_response_async)).
    vm_compute. reflexivity.
Defined.

Lemma async_tool_calls_indexed_witness :
  forallb is_dict [raw_tool_call "call_1" "get_weather";
                   indexed_tool_call "call_2" "get_time" 7] = true
  /\ [indexed_tool_call "call_1" "get_weather" 0;
      indexed_tool_call "call_2" "get_time" 7]
     = map (fun it => with_index (fst it) (snd it))
           (enumerate [raw_tool_call "call_1" "get_weather";
                       indexed_tool_call "call_2" "get_time" 7])
  /\ Forall2 (fun t obj =>
                exists d, t = VDict d /\ dict_mem "index" d = true
                          /\ delta_tool_call_of_dict d = Ok obj)
             [indexed_tool_call "call_1" "get_weather" 0;
              indexed_tool_call "call_2" "get_time" 7]
             [typed_tool_call "call_1" "get_weather" 0;
              typed_tool_call "call_2" "get_time" 7].
Proof.
  apply (async_tool_calls_indexed
           [raw_tool_call "call_1" "get_weather";
            indexed_tool_call "call_2" "get_time" 7]).
  vm_compute. reflexivity.
Defined.

Lemma async_adapter_second_run_witness :
  convert_to_streaming_response_async (Some tool_call_payload_after)
  = (Some tool_call_payload_after, Ok tool_call_response_async).
Proof.
  apply (async_adapter_second_run) with (ro := tool_call_payload).
  - intros d obj. cbn. unfold PyRuntime.delta_tool_call.
    destruct (dict_mem "function" d && dict_mem "index" d);
      [intros [= <-]; reflexivity | discriminate].
  - vm_compute. reflexivity.
Defined.

(** ** The response assembler, further *)

Section AssemblerFurther.
Context `{Runtime}.

Variables (start_time end_time : option datetime)
          (hidden_params _response_headers : option dict)
          (convert_tool_call_to_json_mode : option bool).

(** The call with the completion kind and the arguments above. *)
Local Abbreviation completion response_object model_response_object stream :=
  (convert_to_model_response_object response_object model_response_object
     "completion" stream start_time end_time hidden_params _response_headers
     convert_tool_call_to_json_mode).


(** X13: with [stream] set, the completion kind hands back the generator
    of the synchronous adapter without reading [choices]: a payload whose
    [choices] are missing raises nothing at the call, and the [KeyError]
    surfaces, unwrapped, when the generator is run. *)
Theorem completion_stream_is_lazy ro m :
  has_error (Some ro) = false ->
  completion (Some ro) (Some (RModel m)) true = Ok (Generator ro)
  /\ (dict_lookup "choices" ro = None ->
      snd (convert_to_streaming_response (Some ro))
      = Raise (KeyError "choices")).
Proof.
  intros Hne. unfold convert_to_model_response_object.
  rewrite (check_error_passes _ Hne). split; [reflexivity |].
  intros Hc. unfold convert_to_streaming_response. cbn. now rewrite Hc.
Qed.

(** What a successful non-streaming completion went through. *)
Lemma completion_ok ro m ret :
  completion (Some ro) (Some (RModel m)) false = Ok ret ->
  exists choices items choice_list m',
    dict_lookup "choices" ro = Some choices
    /\ iterate choices = Ok items
    /\ mapM (convert_choice convert_tool_call_to_json_mode) (enumerate items)
       = Ok choice_list
    /\ ret = Returned (RModel m')
    /\ mr_choices m' = NonStreaming choice_list
    /\ mr_created m' = match dict_lookup "created" ro with
                       | Some c => py_or c (VInt time_now)
                       | None => mr_created m
                       end
    /\ mr_id m' = match dict_lookup "id" ro with
                  | Some i => py_or i (VStr uuid4)
                  | None => mr_id m
                  end
    /\ mr_system_fingerprint m'
       = match dict_lookup "system_fingerprint" ro with
         | Some f => f
         | None => mr_system_fingerprint m
         end
    /\ merge_model ro (mr_model m) = Ok (mr_model m')
    /\ mr_response_headers m' = match _response_headers with
                                | Some h => Some h
                                | None => mr_response_headers m
                                end
    /\ mr_extra m' = copy_extra_keys ro (mr_extra m).
Proof.
  unfold convert_to_model_response_object.
  destruct (check_error (Some ro)) as [[] | e]; [| discriminate].
  cbn [dispatch String.eqb Ascii.eqb Bool.eqb andb convert_completion subscript].
  destruct (bind _ _) as [r | e] eqn:Hd; [| discriminate].
  intros [= ->].
  destruct (dict_lookup "choices" ro) as [choices |]; [| discriminate Hd].
  cbn [bind] in Hd.
  destruct (is_None choices || negb (is_Iterable choices)); [discriminate Hd |].
  bind_inv Hd. injection Hd as <-.
  exists choices, a, a0. eexists.
  repeat (split; [first [eassumption | reflexivity] |]). reflexivity.
Qed.

(** X14: a non-streaming completion that is assembled has one choice per
    payload choice, in order, indexed by position from 0. *)
Theorem completion_choices_indexed ro m ret :
  completion (Some ro) (Some (RModel m)) false = Ok ret ->
  exists choices items choice_list m',
    dict_lookup "choices" ro = Some choices
    /\ iterate choices = Ok items
    /\ ret = Returned (RModel m')
    /\ mr_choices m' = NonStreaming choice_list
    /\ map ch_index choice_list = seq 0 (length items).
Proof.
  intros Hr.
  destruct (completion_ok _ _ _ Hr)
    as (choices & items & cl & m' & Hc & Hi & Hm & -> & Hcl & _).
  exists choices, items, cl, m'. repeat (split; [assumption || reflexivity |]).
  unfold enumerate in Hm.
  apply (mapM_indices (convert_choice convert_tool_call_to_json_mode)
           ch_index items) with (k := 0) (ys := cl); [| exact Hm].
  intros [idx choice] y Hy. unfold convert_choice in Hy.
  bind_inv Hy.
  match type of Hy with
  | match ?p with pair _ _ => _ end = _ => destruct p as [message finish_reason]
  end.
  bind_inv Hy. now injection Hy as <-.
Qed.


(** X16: in JSON mode a choice whose effective tool calls are a single
    call with an argument string becomes a message built from that string
    alone, [litellm.Message(content=arguments)], with finish reason
    "stop": the payload's role, content and finish reason are not read,
    and a message without [role] is accepted. *)
Theorem json_mode_coercion idx c message tc arguments :
  dict_lookup "message" c = Some message ->
  effective_tool_calls message = Ok (TypedToolCalls [tc]) ->
  fn_arguments (tc_function tc) = Some arguments ->
  exists choice,
    convert_choice (Some true) (idx, VDict c) = Ok choice
    /\ ch_message choice = Message_of_content (VStr arguments)
    /\ ch_finish_reason choice = VStr "stop"
    /\ ch_index choice = idx.
Proof.
  intros Hm Ht Ha. unfold convert_choice. cbn [subscript]. rewrite Hm.
  cbn [bind]. rewrite Ht. cbn [bind].
  unfold json_mode_message. cbn [is_single length Nat.eqb bind first_arguments].
  rewrite Ha. cbn [is_None bind finish_reason_fallback get].
  eexists. split; [reflexivity |]. repeat split.
Qed.

Lemma before_slash_app p rest :
  no_slash p -> before_slash (p ++ "/" ++ rest)%string = Some p.
Proof.
  unfold no_slash. induction p as [| ch p IH]; simpl in *; [reflexivity |].
  destruct (Ascii.eqb ch "/"); [discriminate |].
  destruct (before_slash p); [discriminate |].
  intros _. now rewrite IH.
Qed.

(** X17: the model-name merge. Without a [model] key in the payload, or
    with a target model that has no "/", the target's model is kept (the
    payload's model is then ignored); a target without model adopts the
    payload's; a target model "provider/..." with a payload model [pm]
    becomes "provider/pm", the provider being the text before the first
    "/", and is kept when the payload's model is null. *)
Theorem merge_model_cases ro provider rest target :
  no_slash provider -> no_slash target ->
  (dict_lookup "model" ro = None ->
   forall model, merge_model ro model = Ok model)
  /\ (forall payload_model,
        dict_lookup "model" ro = Some payload_model ->
        merge_model ro VNone = Ok payload_model
        /\ merge_model ro (VStr target) = Ok (VStr target))
  /\ (forall pm,
        dict_lookup "model" ro = Some (VStr pm) ->
        merge_model ro (VStr (provider ++ "/" ++ rest)%string)
        = Ok (VStr (provider ++ "/" ++ pm)%string))
  /\ (dict_lookup "model" ro = Some VNone ->
      merge_model ro (VStr (provider ++ "/" ++ rest)%string)
      = Ok (VStr (provider ++ "/" ++ rest)%string)).
Proof.
  intros Hp Ht. unfold merge_model. split; [| split; [| split]].
  - now intros ->.
  - intros payload_model ->. split; [reflexivity |].
    unfold no_slash in Ht. now rewrite Ht.
  - intros pm ->. now rewrite (before_slash_app _ _ Hp).
  - intros ->. now rewrite (before_slash_app _ _ Hp).
Qed.

Lemma copy_extra_keys_special ro : forall extra k,
  special_key k = true ->
  dict_lookup k (copy_extra_keys ro extra) = dict_lookup k extra.
Proof.
  unfold copy_extra_keys, special_key.
  induction ro as [| [k0 v0] ro IH]; intros extra k Hs; [reflexivity |].
  cbn [fold_left fst snd]. rewrite (IH _ _ Hs).
  destruct (existsb (String.eqb k0) (model_fields ++ ["usage"])) eqn:E0;
    [reflexivity |].
  apply dict_lookup_set_ne. intros ->. congruence.
Qed.

Lemma copy_extra_keys_other ro : forall extra k,
  special_key k = false ->
  NoDup (map fst ro) ->
  dict_lookup k (copy_extra_keys ro extra)
  = match dict_lookup k ro with
    | Some v => Some v
    | None => dict_lookup k extra
    end.
Proof.
  unfold copy_extra_keys, special_key.
  induction ro as [| [k0 v0] ro IH]; intros extra k Hs Hnd; [reflexivity |].
  inversion Hnd as [| ? ? Hnotin Hnd']; subst.
  cbn [fold_left fst snd dict_lookup]. rewrite (IH _ _ Hs Hnd').
  destruct (String.eqb_spec k k0) as [-> | Hne].
  - rewrite (dict_lookup_None_notin _ _ Hnotin), Hs.
    apply dict_lookup_set_eq.
  - destruct (dict_lookup k ro); [reflexivity |].
    destruct (existsb (String.eqb k0) (model_fields ++ ["usage"]));
      [reflexivity | now apply dict_lookup_set_ne].
Qed.

(** X18: the passthrough of unknown payload keys: a key that is a model
    field or "usage" is never copied onto the response as an extension
    attribute; any other payload key is, with the payload's value, and an
    extension attribute the payload does not name is kept. *)
Theorem extra_keys_passthrough ro extra k :
  NoDup (map fst ro) ->
  dict_lookup k (copy_extra_keys ro extra)
  = if special_key k then dict_lookup k extra
    else match dict_lookup k ro with
         | Some v => Some v
         | None => dict_lookup k extra
         end.
Proof.
  intros Hnd. destruct (special_key k) eqn:Hs.
  - now apply copy_extra_keys_special.
  - now apply copy_extra_keys_other.
Qed.

Lemma dict_lookup_copy_if_present k k' (src dst : dict) :
  dict_lookup k (copy_if_present k' src dst)
  = if (k =? k')%string
    then match dict_lookup k' src with
         | Some v => Some v
         | None => dict_lookup k dst
         end
    else dict_lookup k dst.
Proof.
  unfold copy_if_present.
  destruct (String.eqb_spec k k') as [-> | Hne];
    destruct (dict_lookup k' src); try reflexivity.
  - apply dict_lookup_set_eq.
  - now apply dict_lookup_set_ne.
Qed.

(** X19: the audio-transcription kind, on a payload without error,
    always returns a transcription (a fresh one when no target is given)
    whose attributes are the target's, overwritten by the payload's
    [text], [language], [task], [duration], [words] and [segments] when
    present; no other payload key is copied. *)
Theorem transcription_attributes ro target k :
  has_error (Some ro) = false ->
  exists t,
    convert_to_model_response_object (Some ro)
      (option_map RTranscription target) "audio_transcription" false
      start_time end_time hidden_params _response_headers
      convert_tool_call_to_json_mode
    = Ok (Returned (RTranscription t))
    /\ dict_lookup k (tr_attrs t)
       = let old := tr_attrs (match target with
                              | Some t0 => t0
                              | None => new_transcription_response
                              end) in
         if existsb (String.eqb k) TRANSCRIPTION_KEYS
         then match dict_lookup k ro with
              | Some v => Some v
              | None => dict_lookup k old
              end
         else dict_lookup k old.
Proof.
  intros Hne. unfold convert_to_model_response_object.
  rewrite (check_error_passes _ Hne).
  destruct target as [t0 |]; cbn [option_map dispatch String.eqb Ascii.eqb
    Bool.eqb andb convert_transcription];
    (eexists; split; [reflexivity |]);
    cbn [tr_attrs fold_left TRANSCRIPTION_KEYS existsb];
    rewrite !dict_lookup_copy_if_present;
    repeat match goal with
    | |- context [String.eqb k ?c] =>
        destruct (String.eqb_spec k c) as [-> | ?]; cbn [orb]
    end;
    repeat match goal with
    | |- context [dict_lookup ?c ro] => destruct (dict_lookup c ro)
    end; reflexivity.
Qed.

Lemma mapM_raises {A B} (f : A -> result B) (l : list A) (x : A) :
  In x l -> (exists e, f x = Raise e) -> exists e, mapM f l = Raise e.
Proof.
  intros Hin Hx. induction l as [| y l IH]; [contradiction |].
  cbn [mapM]. destruct Hin as [-> | Hin].
  - destruct Hx as [e ->]. cbn. eauto.
  - destruct (f y); cbn [bind]; [| eauto].
    destruct (IH Hin) as [e ->]. cbn. eauto.
Qed.

(** X20: a completion cannot be assembled when a tool call of one of its
    choices has arguments that are no valid JSON: the repair step raises
    inside the per-choice loop and the call raises the wrapped assembly
    error, whatever the names of the tool calls. *)
Theorem completion_rejects_unparsable_arguments ro m items c message raw
    tool_calls tc text :
  has_error (Some ro) = false ->
  dict_lookup "choices" ro = Some (VList items) ->
  In (VDict c) items ->
  dict_lookup "message" c = Some (VDict message) ->
  dict_lookup "tool_calls" message = Some (VList raw) ->
  mapM tool_call_of_dict raw = Ok tool_calls ->
  In tc tool_calls ->
  fn_arguments (tc_function tc) = Some text ->
  json_loads text = None ->
  exists e,
    completion (Some ro) (Some (RModel m)) false
    = Raise (InvalidResponseObject e).
Proof.
  intros Hne Hc Hin Hm Ht Htyped Htc Ha Hl.
  assert (Hchoice : forall idx, exists e,
             convert_choice convert_tool_call_to_json_mode (idx, VDict c)
             = Raise e).
  { intros idx. unfold convert_choice. cbn [subscript]. rewrite Hm.
    cbn [bind]. unfold effective_tool_calls. cbn [get]. unfold dict_get.
    rewrite Ht. cbn [bind is_None iterate]. rewrite Htyped. cbn [bind].
    unfold _handle_invalid_parallel_tool_calls, collect_replacements.
    destruct (In_enumerate_from tc tool_calls 0 Htc) as [i Hi].
    destruct (foldM_raises collect_step (enumerate tool_calls) (i, tc) Hi)
      with (a := @nil (nat * list ChatCompletionMessageToolCall)) as [e He].
    - intros r. exists JSONDecodeError. now apply collect_step_invalid with text.
    - rewrite He. cbn. eauto. }
  destruct (In_enumerate_from (VDict c) items 0 Hin) as [idx Hidx].
  destruct (mapM_raises (convert_choice convert_tool_call_to_json_mode)
              (enumerate items) (idx, VDict c) Hidx (Hchoice idx)) as [e He].
  exists e. unfold convert_to_model_response_object.
  rewrite (check_error_passes _ Hne).
  cbn [dispatch String.eqb Ascii.eqb Bool.eqb andb convert_completion subscript].
  rewrite Hc. cbn [bind is_None is_Iterable negb orb iterate].
  now rewrite He.
Qed.

End AssemblerFurther.

(** ** [core_helpers], further *)

Lemma dict_remove_absent k (d : dict) :
  dict_mem k d = false -> dict_remove k d = d.
Proof.
  unfold dict_mem, dict_remove.
  induction d as [| [k' v'] d IH]; simpl; [reflexivity |].
  rewrite (String.eqb_sym k' k).
  destruct (k =? k')%string; [discriminate |].
  intros Hm. simpl. now rewrite IH.
Qed.

Lemma dict_mem_remove k (d : dict) : dict_mem k (dict_remove k d) = false.
Proof.
  unfold dict_mem, dict_remove.
  induction d as [| [k' v'] d IH]; simpl; [reflexivity |].
  destruct (String.eqb_spec k' k) as [-> | Hne]; simpl; [exact IH |].
  destruct (String.eqb_spec k k') as [-> | _]; [congruence | exact IH].
Qed.

Lemma pop_index_dict d : pop_index (VDict d) = (without_index (VDict d), Ok tt).
Proof.
  unfold pop_index. cbn [contains without_index].
  destruct (dict_mem "index" d) eqn:Hm; [reflexivity |].
  now rewrite (dict_remove_absent _ _ Hm).
Qed.

Lemma for_each_pop_index l :
  forallb is_dict l = true ->
  for_each pop_index l = (map without_index l, Ok tt).
Proof.
  induction l as [| t l IH]; [reflexivity |].
  cbn [forallb]. intros Hl. apply andb_true_iff in Hl as [Ht Hl].
  destruct t; try discriminate Ht.
  cbn [for_each]. rewrite pop_index_dict, (IH Hl). reflexivity.
Qed.

Lemma pop_index_in_dict_list tool_calls :
  dict_list tool_calls = true ->
  for_each_in pop_index tool_calls
  = (tool_calls_without_index tool_calls, Ok tt).
Proof.
  destruct tool_calls; try discriminate. cbn [dict_list]. intros Hl.
  unfold for_each_in. now rewrite (for_each_pop_index _ Hl).
Qed.

Lemma pop_index_in_plain_message message :
  plain_message message = true ->
  pop_index_in_message message = (message_without_index message, Ok tt).
Proof.
  destruct message as [| b | n | s | l | m | cls attrs]; try discriminate.
  unfold plain_message, pop_index_in_message, message_without_index.
  cbn [contains]. unfold dict_mem.
  destruct (dict_lookup "tool_calls" m) as [tool_calls |]; [| reflexivity].
  intros Hl. now rewrite (pop_index_in_dict_list _ Hl).
Qed.

Lemma for_each_plain_messages ms :
  forallb plain_message ms = true ->
  for_each pop_index_in_message ms = (map message_without_index ms, Ok tt).
Proof.
  induction ms as [| message ms IH]; [reflexivity |].
  cbn [forallb]. intros Hl. apply andb_true_iff in Hl as [Hm Hl].
  cbn [for_each]. rewrite (pop_index_in_plain_message _ Hm), (IH Hl).
  reflexivity.
Qed.

Lemma remove_index_plain ms tool_calls :
  forallb plain_message ms = true ->
  dict_list tool_calls = true ->
  remove_index_from_tool_calls (VList ms) tool_calls
  = ((VList (map message_without_index ms),
      tool_calls_without_index tool_calls), Ok tt).
Proof.
  intros Hm Ht. unfold remove_index_from_tool_calls.
  rewrite (pop_index_in_dict_list _ Ht). unfold for_each_in.
  now rewrite (for_each_plain_messages _ Hm).
Qed.





Lemma without_index_idem t : without_index (without_index t) = without_index t.
Proof.
  destruct t; try reflexivity. cbn [without_index]. f_equal.
  apply dict_remove_absent, dict_mem_remove.
Qed.

Lemma dict_set_set k v v' (d : dict) :
  dict_set k v (dict_set k v' d) = dict_set k v d.
Proof.
  induction d as [| [k' v0] d IH]; simpl.
  - now rewrite String.eqb_refl.
  - destruct (k =? k')%string eqn:E; simpl; rewrite E; [reflexivity |].
    now rewrite IH.
Qed.

Lemma tool_calls_without_index_idem tool_calls :
  tool_calls_without_index (tool_calls_without_index tool_calls)
  = tool_calls_without_index tool_calls.
Proof.
  destruct tool_calls; try reflexivity. cbn [tool_calls_without_index].
  f_equal. rewrite map_map. apply map_ext. intros t. apply without_index_idem.
Qed.

Lemma message_without_index_idem message :
  message_without_index (message_without_index message)
  = message_without_index message.
Proof.
  destruct message as [| b | n | s | l | m | cls attrs]; try reflexivity.
  cbn [message_without_index].
  destruct (dict_lookup "tool_calls" m) as [tool_calls |] eqn:Hl.
  - cbn [message_without_index]. rewrite dict_lookup_set_eq, dict_set_set.
    now rewrite tool_calls_without_index_idem.
  - cbn [message_without_index]. now rewrite Hl.
Qed.

Lemma without_index_dict_list tool_calls :
  dict_list tool_calls = true ->
  dict_list (tool_calls_without_index tool_calls) = true.
Proof.
  destruct tool_calls; try discriminate. cbn. intros Hl.
  induction l as [| t l IH]; [reflexivity |].
  cbn in *. apply andb_true_iff in Hl as [Ht Hl].
  rewrite (IH Hl), andb_true_r. now destruct t.
Qed.

Lemma message_without_index_plain message :
  plain_message message = true ->
  plain_message (message_without_index message) = true.
Proof.
  destruct message as [| b | n | s | l | m | cls attrs]; try discriminate.
  cbn [plain_message message_without_index].
  destruct (dict_lookup "tool_calls" m) as [tool_calls |] eqn:Hl.
  - intros Ht. cbn [plain_message]. rewrite dict_lookup_set_eq.
    now apply without_index_dict_list.
  - intros _. cbn [plain_message]. now rewrite Hl.
Qed.

(** X22: removing the indexes is idempotent: a second call on the
    messages and tool calls the first call left returns them unchanged. *)
Theorem remove_index_idempotent ms tool_calls ms' tool_calls' :
  forallb plain_message ms = true ->
  dict_list tool_calls = true ->
  remove_index_from_tool_calls (VList ms) tool_calls
  = ((VList ms', tool_calls'), Ok tt) ->
  remove_index_from_tool_calls (VList ms') tool_calls'
  = ((VList ms', tool_calls'), Ok tt).
Proof.
  intros Hm Ht. rewrite (remove_index_plain _ _ Hm Ht). intros [= <- <-].
  rewrite remove_index_plain.
  - rewrite tool_calls_without_index_idem, map_map.
    do 3 f_equal. apply map_ext. intros m. apply message_without_index_idem.
  - clear - Hm. induction ms as [| message ms IH]; [reflexivity |].
    cbn in *. apply andb_true_iff in Hm as [Hp Hm].
    now rewrite (message_without_index_plain _ Hp), (IH Hm).
  - now apply without_index_dict_list.
Qed.

(** X23: where the parent span is looked for. A span in the [metadata]
    dict of the keyword arguments is returned first, whatever
    [litellm_params] holds; when neither [metadata] nor
    [litellm_params.metadata] holds one, the top-level
    [litellm_parent_otel_span] is returned, or [None] when there is
    none. *)
Theorem parent_span_priority kwargs :
  (forall metadata span,
      dict_lookup "metadata" kwargs = Some (VDict metadata) ->
      dict_lookup PARENT_SPAN metadata = Some span ->
      _get_parent_otel_span_from_kwargs (VDict kwargs) = span)
  /\ (lacks_span (dict_lookup "metadata" kwargs) = true ->
      lacks_span (match dict_lookup "litellm_params" kwargs with
                  | Some (VDict params) => dict_lookup "metadata" params
                  | Some VNone | None => None
                  | Some other => Some other
                  end) = true ->
      _get_parent_otel_span_from_kwargs (VDict kwargs)
      = dict_get PARENT_SPAN kwargs).
Proof.
  unfold _get_parent_otel_span_from_kwargs, parent_otel_span_body.
  cbn [is_None get bind]. unfold dict_get. split.
  - intros metadata span Hm Hs. rewrite Hm. unfold py_or.
    destruct metadata as [| kv metadata]; [discriminate Hs |].
    cbn [truthy contains bind]. unfold dict_mem. rewrite Hs.
    cbn [subscript]. now rewrite Hs.
  - intros Hm Hp.
    assert (Hmeta : exists d,
               py_or match dict_lookup "metadata" kwargs with
                     | Some v => v
                     | None => VNone
                     end (VDict []) = VDict d
               /\ dict_mem PARENT_SPAN d = false).
    { destruct (dict_lookup "metadata" kwargs)
        as [[| b | n | s | l | [| kv d] | cls attrs] |];
        try discriminate Hm; try (exists []; split; reflexivity).
      exists (kv :: d). split; [reflexivity |].
      cbn [lacks_span] in Hm. now apply negb_true_iff in Hm. }
    destruct Hmeta as (d & -> & Hd). cbn [contains bind]. rewrite Hd.
    assert (Hparams :
              (if is_None match dict_lookup "litellm_params" kwargs with
                          | Some v => v
                          | None => VNone
                          end
               then Ok false
               else
                 params_metadata <-
                   get match dict_lookup "litellm_params" kwargs with
                       | Some v => v
                       | None => VNone
                       end "metadata" ;;
                 (if is_None params_metadata then Ok false
                  else
                    params_metadata0 <-
                      get_default match dict_lookup "litellm_params" kwargs with
                                  | Some v => v
                                  | None => VNone
                                  end "metadata" (VDict []) ;;
                    contains PARENT_SPAN params_metadata0)) = Ok false).
    { destruct (dict_lookup "litellm_params" kwargs)
        as [[| b | n | s | l | params | cls attrs] |];
        try discriminate Hp; try reflexivity.
      cbn [is_None get bind get_default]. unfold dict_get.
      destruct (dict_lookup "metadata" params)
        as [[| b | n | s | l | pm | cls attrs] |];
        try discriminate Hp; try reflexivity.
      cbn [is_None bind contains]. cbn [lacks_span] in Hp.
      apply negb_true_iff in Hp. now rewrite Hp. }
    rewrite Hparams. cbn [bind contains]. unfold dict_mem.
    destruct (dict_lookup PARENT_SPAN kwargs) as [span |] eqn:Hk;
      [cbn [subscript]; now rewrite Hk | reflexivity].
Qed.

(** X24: the parent span and the request metadata agree: when
    [get_litellm_metadata_from_kwargs] returns a dict that holds a parent
    span and the top-level [metadata] holds none, that span is the one
    [_get_parent_otel_span_from_kwargs] returns. *)
Theorem parent_span_from_litellm_metadata kwargs metadata span :
  get_litellm_metadata_from_kwargs (VDict kwargs) = Ok (VDict metadata) ->
  dict_lookup PARENT_SPAN metadata = Some span ->
  lacks_span (dict_lookup "metadata" kwargs) = true ->
  _get_parent_otel_span_from_kwargs (VDict kwargs) = span.
Proof.
  unfold get_litellm_metadata_from_kwargs. cbn [get_default bind].
  intros Hg Hs Hm.
  destruct (dict_lookup "litellm_params" kwargs)
    as [[| b | n | s | l | params | cls attrs] |] eqn:Hp;
    try discriminate Hg.
  2: { injection Hg as <-. discriminate Hs. }
  cbn [get_default] in Hg. injection Hg as Hg.
  destruct (dict_lookup "metadata" params) as [pm |] eqn:Hpm;
    [subst pm | injection Hg as <-; discriminate Hs].
  unfold _get_parent_otel_span_from_kwargs, parent_otel_span_body.
  cbn [is_None get bind]. unfold dict_get. rewrite Hp.
  assert (Hmeta : exists d,
             py_or match dict_lookup "metadata" kwargs with
                   | Some v => v
                   | None => VNone
                   end (VDict []) = VDict d
             /\ dict_mem PARENT_SPAN d = false).
  { destruct (dict_lookup "metadata" kwargs)
      as [[| b | n | s | l | [| kv d] | cls attrs] |];
      try discriminate Hm; try (exists []; split; reflexivity).
    exists (kv :: d). split; [reflexivity |].
    cbn [lacks_span] in Hm. now apply negb_true_iff in Hm. }
  destruct Hmeta as (d & -> & Hd). cbn [contains bind]. rewrite Hd.
  cbn [is_None get bind get_default]. unfold dict_get. rewrite Hpm.
  cbn [is_None bind contains]. unfold dict_mem. rewrite Hs.
  cbn [bind subscript]. rewrite Hpm. cbn [bind subscript]. now rewrite Hs.
Qed.

(** ** The further properties at concrete inputs *)

Lemma strip_functions_prefix_witness :
  strip_functions (VStr "functions.get_weather") = Ok "get_weather"
  /\ strip_functions (VStr "get_weather") = Ok "get_weather".
Proof.
  split.
  - apply (proj1 (strip_functions_prefix "get_weather")).
  - apply (proj2 (strip_functions_prefix "get_weather")). reflexivity.
Defined.

Lemma adapters_agree_without_raw_tool_calls_witness :
  snd (convert_to_streaming_response_async (Some hello_payload))
  = result_map drop_enhancements
      (snd (convert_to_streaming_response (Some hello_payload))).
Proof.
  apply (adapters_agree_without_raw_tool_calls hello_payload).
  intros l [= <-]. reflexivity.
Defined.


Lemma completion_stream_is_lazy_witness :
  convert_to_model_response_object (Some [("id", VStr "chatcmpl-7")])
    (Some (RModel PyRuntime.empty_response)) "completion" true
    None None None None None
  = Ok (Generator [("id", VStr "chatcmpl-7")])
  /\ (dict_lookup "choices" [("id", VStr "chatcmpl-7")] = None ->
      snd (convert_to_streaming_response (Some [("id", VStr "chatcmpl-7")]))
      = Raise (KeyError "choices")).
Proof.
  apply (completion_stream_is_lazy None None None None None
           [("id", VStr "chatcmpl-7")] PyRuntime.empty_response).
  reflexivity.
Defined.

Lemma completion_choices_indexed_witness :
  exists choices items choice_list m',
    dict_lookup "choices" hello_payload = Some choices
    /\ iterate choices = Ok items
    /\ Returned (RModel hello_response) = Returned (RModel m')
    /\ mr_choices m' = NonStreaming choice_list
    /\ map ch_index choice_list = seq 0 (length items).
Proof.
  apply (completion_choices_indexed None None None None None hello_payload
           PyRuntime.empty_response (Returned (RModel hello_response))).
  vm_compute. reflexivity.
Defined.


Lemma json_mode_coercion_witness :
  exists choice,
    convert_choice (Some true) (0, VDict json_mode_choice) = Ok choice
    /\ ch_message choice
       = Message_of_content (VStr (arguments_json (VDict [])))
    /\ ch_finish_reason choice = VStr "stop"
    /\ ch_index choice = 0.
Proof.
  apply (json_mode_coercion 0 json_mode_choice
           (VDict [("tool_calls",
                    VList [raw_tool_call "call_1" "get_weather"])])
           (plain_call "call_1" "get_weather" (arguments_json (VDict [])))).
  - reflexivity.
  - vm_compute. reflexivity.
  - reflexivity.
Defined.

Lemma merge_model_cases_witness :
  (dict_lookup "model" [("model", VStr "gpt-4-0613")] = None ->
   forall model, merge_model [("model", VStr "gpt-4-0613")] model = Ok model)
  /\ (forall payload_model,
        dict_lookup "model" [("model", VStr "gpt-4-0613")]
        = Some payload_model ->
        merge_model [("model", VStr "gpt-4-0613")] VNone = Ok payload_model
        /\ merge_model [("model", VStr "gpt-4-0613")] (VStr "gpt-4")
           = Ok (VStr "gpt-4"))
  /\ (forall pm,
        dict_lookup "model" [("model", VStr "gpt-4-0613")] = Some (VStr pm) ->
        merge_model [("model", VStr "gpt-4-0613")]
          (VStr ("azure" ++ "/" ++ "gpt-4")%string)
        = Ok (VStr ("azure" ++ "/" ++ pm)%string))
  /\ (dict_lookup "model" [("model", VStr "gpt-4-0613")] = Some VNone ->
      merge_model [("model", VStr "gpt-4-0613")]
        (VStr ("azure" ++ "/" ++ "gpt-4")%string)
      = Ok (VStr ("azure" ++ "/" ++ "gpt-4")%string)).
Proof.
  apply (merge_model_cases [("model", VStr "gpt-4-0613")] "azure" "gpt-4"
           "gpt-4"); reflexivity.
Defined.

Lemma extra_keys_passthrough_witness :
  dict_lookup "service_tier" (copy_extra_keys hello_payload [])
  = Some (VStr "default")
  /\ dict_lookup "model" (copy_extra_keys hello_payload []) = None.
Proof.
  assert (Hnd : NoDup (map fst hello_payload))
    by (repeat constructor; simpl; intuition discriminate).
  split.
  - exact (extra_keys_passthrough hello_payload [] "service_tier" Hnd).
  - exact (extra_keys_passthrough hello_payload [] "model" Hnd).
Defined.

Lemma transcription_attributes_witness :
  exists t,
    convert_to_model_response_object
      (Some [("text", VStr "hello"); ("language", VStr "en");
             ("x_request", VInt 1)])
      None "audio_transcription" false None None None None None
    = Ok (Returned (RTranscription t))
    /\ dict_lookup "x_request" (tr_attrs t) = None.
Proof.
  exact (transcription_attributes None None None None None
           [("text", VStr "hello"); ("language", VStr "en");
            ("x_request", VInt 1)] None "x_request" eq_refl).
Defined.

Lemma completion_rejects_unparsable_arguments_witness :
  exists e,
    convert_to_model_response_object (Some bad_arguments_payload)
      (Some (RModel PyRuntime.empty_response)) "completion" false
      None None None None None
    = Raise (InvalidResponseObject e).
Proof.
  apply (completion_rejects_unparsable_arguments None None None None None
           bad_arguments_payload PyRuntime.empty_response
           [VDict bad_arguments_choice] bad_arguments_choice
           [("role", VStr "assistant");
            ("tool_calls",
             VList [VDict [("id", VStr "call_1");
                           ("function",
                            VDict [("name", VStr "get_weather");
                                   ("arguments", VStr "not json")])]])]
           [VDict [("id", VStr "call_1");
                   ("function", VDict [("name", VStr "get_weather");
                                       ("arguments", VStr "not json")])]]
           [plain_call "call_1" "get_weather" "not json"]
           (plain_call "call_1" "get_weather" "not json") "not json");
    try reflexivity.
  - left. reflexivity.
  - left. reflexivity.
Defined.


Lemma remove_index_idempotent_witness :
  remove_index_from_tool_calls
    (VList (map message_without_index indexed_messages))
    (tool_calls_without_index indexed_tool_calls)
  = ((VList (map message_without_index indexed_messages),
      tool_calls_without_index indexed_tool_calls), Ok tt).
Proof.
  apply (remove_index_idempotent indexed_messages indexed_tool_calls);
    reflexivity.
Defined.

Lemma parent_span_priority_witness :
  _get_parent_otel_span_from_kwargs
    (VDict [("metadata", VDict [(PARENT_SPAN, VStr "span-1")]);
            ("litellm_params", VInt 3);
            (PARENT_SPAN, VStr "span-3")])
  = VStr "span-1"
  /\ _get_parent_otel_span_from_kwargs
       (VDict [("metadata", VDict [("user", VStr "u")]);
               ("litellm_params", VDict [("metadata", VNone)]);
               (PARENT_SPAN, VStr "span-3")])
     = VStr "span-3".
Proof.
  split.
  - apply (proj1 (parent_span_priority
                    [("metadata", VDict [(PARENT_SPAN, VStr "span-1")]);
                     ("litellm_params", VInt 3);
                     (PARENT_SPAN, VStr "span-3")])
             [(PARENT_SPAN, VStr "span-1")]); reflexivity.
  - apply (proj2 (parent_span_priority
                    [("metadata", VDict [("user", VStr "u")]);
                     ("litellm_params", VDict [("metadata", VNone)]);
                     (PARENT_SPAN, VStr "span-3")])); reflexivity.
Defined.

Lemma parent_span_from_litellm_metadata_witness :
  _get_parent_otel_span_from_kwargs
    (VDict [("litellm_params",
             VDict [("metadata", VDict [(PARENT_SPAN, VStr "span-2")])]);
            (PARENT_SPAN, VStr "span-3")])
  = VStr "span-2".
Proof.
  apply (parent_span_from_litellm_metadata
           [("litellm_params",
             VDict [("metadata", VDict [(PARENT_SPAN, VStr "span-2")])]);
            (PARENT_SPAN, VStr "span-3")]
           [(PARENT_SPAN, VStr "span-2")]); reflexivity.
Defined.
